(** * Secure file storage API: token lifecycle and file custody

    A shallow embedding of the Express handlers of the repository
    ([routes/auth.ts], [routes/files.ts], [middleware/auth.ts],
    [models/File.ts], [models/User.ts]) and the properties of their
    specification.

    Strings are [string]: a JavaScript string stands as the sequence of its
    UTF-8 bytes, so that an ASCII string is the sequence of its characters.
    The two stores are an in-memory collection each; the libraries the
    handlers call (jsonwebtoken, bcryptjs, uuid, the S3 client, the
    Mongoose driver) are the fields of one [Services] record, over which
    every handler is parametrised.

    Three limits of the embedding are met by hypotheses in the theorems
    they bear on. [Js.trim] and [toLowerCase] are those of JavaScript on
    ASCII strings only ([ascii_only]). An identifier a request carries is
    compared as it stands, which is what Mongoose does for the canonical
    string of an ObjectId ([isObjectId]): for any other string the driver
    throws a [CastError], which the handlers catch and answer with 500.
    Numbers are integers, without the negative zero and the rounding of
    JavaScript's doubles. *)

From stdpp Require Import base option list strings gmap.
From Stdlib Require Import ZArith Ascii String Lia DecimalString.
From Stdlib Require Import Sorted Permutation.

Local Open Scope string_scope.

(** ** JavaScript string primitives used by the handlers *)

Module Js.

(** [!s] is false exactly for a non-empty string. *)
Definition truthy (s : string) : bool :=
  match s with
  | EmptyString => false
  | String _ _ => true
  end.

(** [a || b] on strings. *)
Definition or_else (a b : string) : string :=
  if truthy a then a else b.

(** An optional value ([undefined] when absent) tested by [!v]. *)
Definition truthy_opt (o : option string) : bool :=
  match o with
  | Some s => truthy s
  | None => false
  end.

(** [s.split(sep)] for a one-character separator: never the empty array,
    [''.split(sep)] is [['']], and adjacent separators give empty
    segments. *)
Fixpoint split (sep : ascii) (s : string) : list string :=
  match s with
  | EmptyString => [EmptyString]
  | String c rest =>
      if Ascii.eqb c sep then EmptyString :: split sep rest
      else match split sep rest with
           | seg :: segs => String c seg :: segs
           | [] => [String c EmptyString]
           end
  end.

(** [arr.pop()]: the last element, [undefined] on the empty array. *)
Fixpoint pop (l : list string) : option string :=
  match l with
  | [] => None
  | [x] => Some x
  | _ :: tl => pop tl
  end.

(** [s.startsWith(p)]. *)
Fixpoint startsWith (p s : string) : bool :=
  match p, s with
  | EmptyString, _ => true
  | String a p', String b s' => Ascii.eqb a b && startsWith p' s'
  | String _ _, EmptyString => false
  end.

(** [s.includes(p)]. *)
Fixpoint includes (p s : string) : bool :=
  startsWith p s ||
  match s with
  | EmptyString => false
  | String _ s' => includes p s'
  end.

(** The ASCII part of the white space [String.prototype.trim] removes:
    tab, line feed, vertical tab, form feed, carriage return, space. The
    rest of it (U+00A0, U+FEFF, U+2028 and the like) is not ASCII. *)
Definition is_white (c : ascii) : bool :=
  let n := nat_of_ascii c in
  (9 <=? n)%nat && (n <=? 13)%nat || (n =? 32)%nat.

(** Drop the leading characters that satisfy [p]. *)
Fixpoint drop_leading (p : ascii -> bool) (s : string) : string :=
  match s with
  | EmptyString => EmptyString
  | String c rest => if p c then drop_leading p rest else s
  end.

(** Drop the trailing characters that satisfy [p]. *)
Fixpoint drop_trailing (p : ascii -> bool) (s : string) : string :=
  match s with
  | EmptyString => EmptyString
  | String c rest =>
      match drop_trailing p rest with
      | EmptyString => if p c then EmptyString else String c EmptyString
      | kept => String c kept
      end
  end.

(** [s.trim()], for an ASCII string. *)
Definition trim (s : string) : string :=
  drop_trailing is_white (drop_leading is_white s).

(** Whether [c] occurs in [s]. *)
Fixpoint occurs (c : ascii) (s : string) : bool :=
  match s with
  | EmptyString => false
  | String d rest => Ascii.eqb d c || occurs c rest
  end.

End Js.

(** ** Process environment ([process.env]) *)

Record Env := {
  JWT_SECRET : option string;
  JWT_REFRESH_SECRET : option string;
  AWS_ACCESS_KEY_ID : option string;
  AWS_SECRET_ACCESS_KEY : option string;
  AWS_REGION : option string;
  AWS_S3_BUCKET : option string
}.

(** [config/aws.ts], [validateAWSConfig]. *)
Definition validateAWSConfig (env : Env) : bool :=
  Js.truthy_opt (AWS_ACCESS_KEY_ID env) &&
  Js.truthy_opt (AWS_SECRET_ACCESS_KEY env) &&
  Js.truthy_opt (AWS_REGION env) &&
  Js.truthy_opt (AWS_S3_BUCKET env).

(** [S3_BUCKET = process.env.AWS_S3_BUCKET || '']: the one bucket of every
    S3 call, whose content is the [bucket] of the world below. *)
Definition S3_BUCKET (env : Env) : string :=
  match AWS_S3_BUCKET env with
  | Some b => Js.or_else b ""
  | None => ""
  end.

(** ** Key derivation ([routes/files.ts]) *)

Definition slash : ascii := "/"%char.
Definition dot : ascii := "."%char.
Definition space : ascii := " "%char.

Definition is_slash (c : ascii) : bool := Ascii.eqb c slash.

(** [folder.replace(/^\/+|\/+$/g, '')]: the first alternative removes the
    run of slashes at the start, the second the run that reaches the end;
    slashes inside are kept. *)
Definition sanitizeFolder (folder : string) : string :=
  Js.drop_trailing is_slash (Js.drop_leading is_slash folder).

Definition generateS3Key (username folder filename : string) : string :=
  let sanitizedFolder := sanitizeFolder folder in
  let folderPath :=
    if Js.truthy sanitizedFolder then sanitizedFolder ++ "/" else "" in
  "users/" ++ username ++ "/" ++ folderPath ++ filename.

(** [file.originalname.split('.').pop() || '']. *)
Definition fileExtension (originalname : string) : string :=
  match Js.pop (Js.split dot originalname) with
  | Some seg => Js.or_else seg ""
  | None => ""
  end.

(** [`${uuidv4()}.${fileExtension}`], for the identifier drawn. *)
Definition uniqueFilename (uuid originalname : string) : string :=
  uuid ++ "." ++ fileExtension originalname.

(** [getFileType]. *)
Definition getFileType (mimetype : string) : string :=
  if Js.startsWith "image/" mimetype then "image"
  else if Js.startsWith "video/" mimetype then "video"
  else if Js.startsWith "audio/" mimetype then "audio"
  else if Js.includes "pdf" mimetype || Js.includes "document" mimetype
          || Js.includes "text" mimetype then "document"
  else if Js.includes "zip" mimetype || Js.includes "rar" mimetype
          || Js.includes "tar" mimetype then "archive"
  else "other".

(** ** Data model ([models/User.ts], [models/File.ts]) *)

(** A Mongo [ObjectId], in its string form: 24 hexadecimal digits, in
    lower case ([isObjectId] below). The queries compare identifiers as
    they stand, which is the cast of Mongoose on such strings; the
    [CastError] it throws on others is not modelled. *)
Definition ObjectId := string.

(** The bytes of a blob. *)
Definition Blob := string.

(** The claim set a token asserts, which is also [AuthRequest.user]. *)
Module Claims.
Record t := { id : string; email : string; username : string }.
End Claims.

Module User.
Record t := {
  _id : ObjectId;
  username : string;
  email : string;
  password : string;                (* the bcrypt hash *)
  refreshToken : option string      (* [null] by default *)
}.

Definition with_refreshToken (u : t) (tok : option string) : t :=
  {| _id := _id u; username := username u; email := email u;
     password := password u; refreshToken := tok |}.

(** The payload both tokens are signed over. *)
Definition payload (u : t) : Claims.t :=
  {| Claims.id := _id u; Claims.email := email u;
     Claims.username := username u |}.
End User.

Module File.
Record t := {
  _id : ObjectId;
  filename : string;
  originalName : string;
  size : N;
  url : string;
  s3Key : string;
  contentType : string;
  fileType : string;
  folder : string;
  userId : ObjectId;
  uploadTime : N
}.

(** A document read with [.select('-s3Key')]: every field but the key. *)
Record view := {
  v_id : ObjectId;
  v_filename : string;
  v_originalName : string;
  v_size : N;
  v_url : string;
  v_contentType : string;
  v_fileType : string;
  v_folder : string;
  v_userId : ObjectId;
  v_uploadTime : N
}.

Definition select_without_s3Key (f : t) : view :=
  {| v_id := _id f; v_filename := filename f;
     v_originalName := originalName f; v_size := size f; v_url := url f;
     v_contentType := contentType f; v_fileType := fileType f;
     v_folder := folder f; v_userId := userId f;
     v_uploadTime := uploadTime f |}.

(** An entry of [uploadedFiles] in the upload response. *)
Record summary := {
  s_id : ObjectId;
  s_filename : string;
  s_originalName : string;
  s_size : N;
  s_contentType : string;
  s_fileType : string;
  s_folder : string;
  s_uploadTime : N
}.

Definition summarize (f : t) : summary :=
  {| s_id := _id f; s_filename := filename f;
     s_originalName := originalName f; s_size := size f;
     s_contentType := contentType f; s_fileType := fileType f;
     s_folder := folder f; s_uploadTime := uploadTime f |}.
End File.

(** An element of [req.files], as multer's memory storage leaves it. *)
Module Multer.
Record file := {
  originalname : string;
  mimetype : string;
  size : N;
  buffer : Blob
}.
End Multer.

(** ** What the handlers do to the outside, in order *)

Inductive Effect :=
| S3Upload (key : string) (ok : bool)          (* [s3.upload(..).promise()] *)
| FileSave (doc : File.t) (ok : bool)          (* [newFile.save()] *)
| S3DeleteObject (key : string) (ok : bool)    (* [s3.deleteObject(..).promise()] *)
| FileDelete (id : ObjectId)                   (* [File.findByIdAndDelete] *)
| UserSave (id : ObjectId)                     (* [user.save()] *)
| ConsoleError (line : string).                (* [console.error] *)

(** The two stores, the bucket, the number of random identifiers drawn so
    far, and the effects performed so far (oldest first). *)
Record World := {
  users : list User.t;
  files : list File.t;
  bucket : gmap string Blob;
  draws : nat;
  journal : list Effect
}.

Definition log (e : Effect) (w : World) : World :=
  {| users := users w; files := files w; bucket := bucket w;
     draws := draws w; journal := journal w ++ [e] |}.

Definition set_users (us : list User.t) (w : World) : World :=
  {| users := us; files := files w; bucket := bucket w;
     draws := draws w; journal := journal w |}.

Definition set_files (fs : list File.t) (w : World) : World :=
  {| users := users w; files := fs; bucket := bucket w;
     draws := draws w; journal := journal w |}.

Definition set_bucket (b : gmap string Blob) (w : World) : World :=
  {| users := users w; files := files w; bucket := b;
     draws := draws w; journal := journal w |}.

Definition draw (w : World) : World :=
  {| users := users w; files := files w; bucket := bucket w;
     draws := S (draws w); journal := journal w |}.

(** ** The libraries behind the handlers

    [jwt_sign payload secret now lifetime] is [jwt.sign] called at clock
    reading [now] (in seconds) with [expiresIn] of [lifetime] seconds: with
    the default algorithm and no [jwtid] option, as the handlers call it,
    the token is a function of the payload, the secret, the issue time in
    seconds and the lifetime;
    [jwt_verify token secret now] is [jwt.verify], [None] when it throws a
    [JsonWebTokenError] (bad signature or expired). [uuidv4 n] and
    [newObjectId n] are the identifiers obtained at the [n]-th draw.
    [s3_upload key body] gives the object's [Location], or [None] when the
    promise rejects; [s3_deleteObject key] tells whether the promise
    resolves. [file_save collection doc] tells whether saving the document
    passes validation and the unique index on [s3Key]. [parseInt] is the
    global function, [None] for [NaN]. [skip_limit skip limit matches] is
    the cursor's [.skip(n).limit(m)] on the sorted matches, [None] when the
    driver rejects the numbers. *)
Record Services := {
  jwt_sign : Claims.t -> string -> N -> N -> string;
  jwt_verify : string -> string -> N -> option Claims.t;
  bcrypt_compare : string -> string -> bool;
  uuidv4 : nat -> string;
  newObjectId : nat -> ObjectId;
  s3_upload : string -> Blob -> option string;
  s3_deleteObject : string -> bool;
  s3_getSignedUrl : string -> N -> string -> string;
  file_save : list File.t -> File.t -> bool;
  parseInt : string -> option Z;
  skip_limit : option Z -> option Z -> list File.t -> option (list File.t)
}.

(** ** Responses *)

(** A JavaScript number as the list handler can compute one. *)
Inductive JsNum := Num (z : Z) | NaN | Infinity.

Record Pagination := {
  page : JsNum;
  limit : JsNum;
  totalFiles : nat;
  totalPages : JsNum;
  hasNext : bool;
  hasPrev : bool
}.

(** The JSON bodies the handlers send, one constructor per shape. *)
Inductive Body :=
| Message (message : string)
| Uploaded (count : nat) (uploaded : list File.summary)
    (* message [Successfully uploaded ${count} file(s)], files *)
| FileList (listed : list File.view) (pagination : Pagination)
| FileListError (message : string)             (* message, files: [] *)
| DownloadLink (signedUrl filename : string) (expiresIn : N)
    (* the URL under [url], [downloadUrl] and [signedUrl] *)
| Deleted (message filename : string)
| FileInfo (file : File.view)
| LoginOk (accessToken refreshToken : string) (user : Claims.t)
    (* message [Login successful], both tokens, user summary *)
| AccessToken (accessToken : string).

Record Response := { status : nat; body : Body }.

Definition reply (code : nat) (b : Body) : Response :=
  {| status := code; body := b |}.

(** What a middleware hands on: the request with [req.user] set, or the
    response it has sent itself. *)
Inductive Guard := Next (user : Claims.t) | Halt (res : Response).

(** A value that [!v] does not reject: present and not the empty string. *)
Definition present (o : option string) : option string :=
  match o with
  | Some s => if Js.truthy s then Some s else None
  | None => None
  end.

(** A value of [req.query]: a string, an array of strings or a nested
    object. *)
Inductive QueryValue :=
| QString (s : string)
| QArray (l : list string)
| QObject.

(** [String(v)], as [parseInt] applies it to its argument. *)
Definition query_text (v : QueryValue) : string :=
  match v with
  | QString s => s
  | QArray l => String.concat "," l
  | QObject => "[object Object]"
  end.

(** The double quote character, as a string. *)
Definition dquote : string := String (ascii_of_nat 34) EmptyString.

(** ** Number helpers of the list handler *)

(** [(pageNum - 1) * limitNum]: [NaN] as soon as one operand is. *)
Definition skip_of (pageNum limitNum : option Z) : option Z :=
  match pageNum, limitNum with
  | Some p, Some l => Some ((p - 1) * l)%Z
  | _, _ => None
  end.

Definition js_num (z : option Z) : JsNum :=
  match z with
  | Some n => Num n
  | None => NaN
  end.

(** [Math.ceil(totalFiles / limitNum)] for a count [totalFiles >= 0]:
    division by zero gives [NaN] for [0 / 0] and [Infinity] otherwise (the
    zero being the positive one). *)
Definition ceil_div (totalFiles : nat) (limitNum : option Z) : JsNum :=
  match limitNum with
  | None => NaN
  | Some l =>
      let t := Z.of_nat totalFiles in
      if (l =? 0)%Z then (if (t =? 0)%Z then NaN else Infinity)
      else Num (- ((- t) / l))%Z
  end.

(** [a < b] on numbers: false when an operand is [NaN]. *)
Definition js_lt (a b : JsNum) : bool :=
  match a, b with
  | Num x, Num y => (x <? y)%Z
  | Num _, Infinity => true
  | _, _ => false
  end.

(** ** More string primitives *)

(** The ASCII part of [String.prototype.toLowerCase]. *)
Definition to_lower (c : ascii) : ascii :=
  let n := nat_of_ascii c in
  if (65 <=? n)%nat && (n <=? 90)%nat then ascii_of_nat (n + 32) else c.

(** [s.toLowerCase()], for an ASCII string. *)
Fixpoint toLowerCase (s : string) : string :=
  match s with
  | EmptyString => EmptyString
  | String c rest => String (to_lower c) (toLowerCase rest)
  end.

(** The UTF-16 code units a byte of UTF-8 starts: one for an ASCII byte
    and for the first byte of a sequence of two or three, two for the
    first byte of a sequence of four, none for a continuation byte. *)
Definition utf16_units (c : ascii) : nat :=
  let n := nat_of_ascii c in
  if (n <? 128)%nat then 1
  else if (n <? 192)%nat then 0
  else if (n <? 240)%nat then 1
  else 2.

(** [s.length]: the number of UTF-16 code units of the string. *)
Fixpoint utf16_length (s : string) : nat :=
  match s with
  | EmptyString => 0
  | String c rest => utf16_units c + utf16_length rest
  end.

(** ** Collection queries *)

(** [User.findOne({ email })]. Mongoose casts the filter with the setters
    of the schema, so that the email is looked up in lower case and
    trimmed. *)
Definition findUserByEmail (email : string) (us : list User.t) : option User.t :=
  List.find
    (fun u => String.eqb (User.email u) (Js.trim (toLowerCase email))) us.

(** [User.findById(id)], for an identifier already cast. *)
Definition findUserById (id : ObjectId) (us : list User.t) : option User.t :=
  List.find (fun u => String.eqb (User._id u) id) us.

(** [user.save()] and [findByIdAndUpdate]: identifiers are unique in a
    collection, and the document with this one is replaced. *)
Definition storeUser (u : User.t) (us : list User.t) : list User.t :=
  List.map (fun v => if String.eqb (User._id v) (User._id u) then u else v) us.

(** Insert by descending [uploadTime], after the documents of equal time. *)
Fixpoint insert_desc (f : File.t) (l : list File.t) : list File.t :=
  match l with
  | [] => [f]
  | g :: rest =>
      if (File.uploadTime g <? File.uploadTime f)%N then f :: l
      else g :: insert_desc f rest
  end.

(** [.sort({ uploadTime: -1 })]. *)
Definition sort_desc (l : list File.t) : list File.t :=
  List.fold_right insert_desc [] l.

(** The filter object of a query on the File collection. Mongoose casts
    it with the setters of the schema, so that a folder is looked up
    trimmed; the type has no setter. *)
Record FileQuery := {
  q_userId : ObjectId;
  q_folder : option string;
  q_fileType : option string
}.

Definition matches (q : FileQuery) (f : File.t) : bool :=
  String.eqb (File.userId f) (q_userId q)
  && match q_folder q with
     | Some d => String.eqb (File.folder f) (Js.trim d)
     | None => true
     end
  && match q_fileType q with
     | Some t => String.eqb (File.fileType f) t
     | None => true
     end.

(** ** The handlers *)

Section Handlers.

Variable svc : Services.
Variable env : Env.

(** *** [middleware/auth.ts] *)

(** [authHeader && authHeader.split(' ')[1]]. *)
Definition headerToken (authorization : option string) : option string :=
  match authorization with
  | None => None
  | Some authHeader =>
      if Js.truthy authHeader then Js.split space authHeader !! 1%nat
      else Some authHeader
  end.

Definition authenticate (now : N) (authorization : option string) : Guard :=
  match present (headerToken authorization) with
  | None => Halt (reply 401 (Message "Access token required"))
  | Some token =>
      match present (JWT_SECRET env) with
      | None => Halt (reply 500 (Message "JWT secret not configured"))
      | Some jwtSecret =>
          match jwt_verify svc token jwtSecret now with
          | Some decoded => Next decoded
          | None => Halt (reply 403 (Message "Invalid or expired token"))
          end
      end
  end.

(** *** [routes/auth.ts] *)

Definition access_lifetime : N := 15 * 60.
Definition refresh_lifetime : N := 7 * 24 * 60 * 60.

(** [POST /login]. *)
Definition login (now : N) (email password : option string) (w : World)
  : World * Response :=
  match present email, present password with
  | Some email, Some password =>
      match findUserByEmail email (users w) with
      | None => (w, reply 401 (Message "Invalid credentials"))
      | Some user =>
          if negb (bcrypt_compare svc password (User.password user)) then
            (w, reply 401 (Message "Invalid credentials"))
          else
            match present (JWT_SECRET env), present (JWT_REFRESH_SECRET env) with
            | Some jwtSecret, Some jwtRefreshSecret =>
                let payload := User.payload user in
                let accessToken :=
                  jwt_sign svc payload jwtSecret now access_lifetime in
                let refreshToken :=
                  jwt_sign svc payload jwtRefreshSecret now refresh_lifetime in
                let user' := User.with_refreshToken user (Some refreshToken) in
                (log (UserSave (User._id user))
                   (set_users (storeUser user' (users w)) w),
                 reply 200 (LoginOk accessToken refreshToken payload))
            | _, _ => (w, reply 500 (Message "JWT secrets not configured"))
            end
      end
  | _, _ => (w, reply 400 (Message "Email and password are required"))
  end.

(** The [catch] of [POST /refresh]. *)
Definition refresh_caught (w : World) : World * Response :=
  (log (ConsoleError "Refresh token error:") w,
   reply 403 (Message "Invalid or expired refresh token")).

(** [POST /refresh]. *)
Definition refresh (now : N) (refreshToken : option string) (w : World)
  : World * Response :=
  match present refreshToken with
  | None => (w, reply 400 (Message "Refresh token required"))
  | Some refreshToken =>
      match present (JWT_REFRESH_SECRET env), present (JWT_SECRET env) with
      | Some jwtRefreshSecret, Some jwtSecret =>
          match jwt_verify svc refreshToken jwtRefreshSecret now with
          | None => refresh_caught w
          | Some decoded =>
              match findUserById (Claims.id decoded) (users w) with
              | None => (w, reply 403 (Message "Invalid refresh token"))
              | Some user =>
                  if bool_decide (User.refreshToken user = Some refreshToken)
                  then
                    let newAccessToken :=
                      jwt_sign svc (User.payload user) jwtSecret now
                        access_lifetime in
                    (w, reply 200 (AccessToken newAccessToken))
                  else (w, reply 403 (Message "Invalid refresh token"))
              end
          end
      | _, _ => (w, reply 500 (Message "JWT secrets not configured"))
      end
  end.

(** [POST /logout], behind [authenticate]. *)
Definition logout (req_user : option Claims.t) (w : World) : World * Response :=
  match req_user with
  | None => (w, reply 401 (Message "User not authenticated"))
  | Some user =>
      (set_users
         (List.map (fun v => if String.eqb (User._id v) (Claims.id user)
                             then User.with_refreshToken v None else v)
            (users w)) w,
       reply 200 (Message "Logout successful"))
  end.

(** *** [routes/files.ts] *)

(** [File.findOne({ _id: req.params.id, userId: req.user.id })], [None]
    for [null]. The queries of the model do not throw, so that the [catch]
    of the handlers that only query is not entered. *)
Definition findOwned (id : ObjectId) (user : Claims.t) (w : World)
  : option File.t :=
  List.find (fun f => String.eqb (File._id f) id
                      && String.eqb (File.userId f) (Claims.id user))
    (files w).

(** One turn of the loop of [POST /upload]: the body of the inner [try]
    and its [catch]. The result is the entry pushed on [uploadedFiles],
    if any. [new File] applies the setters of the schema, which trim
    [filename], [originalName] and [folder], and the default of
    [uploadTime], which is the clock. *)
Definition uploadOne (now : N) (user : Claims.t) (folder : string)
    (file : Multer.file) (w : World) : World * option File.summary :=
  let fileExtension := fileExtension (Multer.originalname file) in
  let uniqueFilename := uuidv4 svc (draws w) ++ "." ++ fileExtension in
  let w := draw w in
  let username :=
    Js.or_else (Claims.username user)
      (Js.or_else (Claims.email user) (Claims.id user)) in
  let s3Key := generateS3Key username folder uniqueFilename in
  let caught :=
    ConsoleError ("Error uploading file " ++ Multer.originalname file ++ ":") in
  match s3_upload svc s3Key (Multer.buffer file) with
  | None => (log caught (log (S3Upload s3Key false) w), None)
  | Some location =>
      let w := log (S3Upload s3Key true)
                 (set_bucket (<[s3Key := Multer.buffer file]> (bucket w)) w) in
      let newFile :=
        {| File._id := newObjectId svc (draws w);
           File.filename := Js.trim uniqueFilename;
           File.originalName := Js.trim (Multer.originalname file);
           File.size := Multer.size file;
           File.url := location;
           File.s3Key := s3Key;
           File.contentType := Multer.mimetype file;
           File.fileType := getFileType (Multer.mimetype file);
           File.folder := Js.trim folder;
           File.userId := Claims.id user;
           File.uploadTime := now |} in
      let w := draw w in
      if file_save svc (files w) newFile then
        (log (FileSave newFile true) (set_files (files w ++ [newFile]) w),
         Some (File.summarize newFile))
      else (log caught (log (FileSave newFile false) w), None)
  end.

(** The [for (const file of files)] loop. *)
Fixpoint uploadEach (now : N) (user : Claims.t) (folder : string)
    (files : list Multer.file) (w : World)
    (uploadedFiles : list File.summary) : World * list File.summary :=
  match files with
  | [] => (w, uploadedFiles)
  | file :: rest =>
      let '(w', pushed) := uploadOne now user folder file w in
      uploadEach now user folder rest w'
        (match pushed with
         | Some entry => uploadedFiles ++ [entry]
         | None => uploadedFiles
         end)
  end.

(** [POST /upload], behind [authenticate] and multer. Every call that
    throws in the model is inside the loop's own [try], so that the outer
    [catch] is not entered. *)
Definition upload (now : N) (req_user : option Claims.t)
    (req_files : option (list Multer.file)) (body_folder : option string)
    (w : World) : World * Response :=
  match req_user with
  | None => (w, reply 401 (Message "User not authenticated"))
  | Some user =>
      if negb (validateAWSConfig env) then
        (w, reply 500 (Message "AWS S3 configuration is incomplete"))
      else
        let folder := default "/" (present body_folder) in
        match req_files with
        | None | Some [] => (w, reply 400 (Message "No files uploaded"))
        | Some files =>
            let '(w', uploadedFiles) := uploadEach now user folder files w [] in
            if (List.length uploadedFiles =? 0)%nat then
              (w', reply 500 (Message "Failed to upload any files"))
            else
              (w', reply 201 (Uploaded (List.length uploadedFiles) uploadedFiles))
        end
  end.

(** [folder && typeof folder === 'string' && folder.trim() !== '']: the
    filter value that enters the query, if any. *)
Definition filter_of (v : option QueryValue) : option string :=
  match v with
  | Some (QString s) =>
      if Js.truthy s && negb (String.eqb (Js.trim s) "") then Some s else None
  | _ => None
  end.

(** A query parameter with a default, as text for [parseInt]. *)
Definition text_or (def : string) (v : option QueryValue) : string :=
  match v with
  | Some x => query_text x
  | None => def
  end.

(** The [catch] of [GET /]. *)
Definition list_caught (w : World) : World * Response :=
  (log (ConsoleError "Get files error:") w,
   reply 500 (FileListError "Server error while fetching files")).

(** [GET /], behind [authenticate]. *)
Definition listFiles (req_user : option Claims.t)
    (folder fileType page limit : option QueryValue) (w : World)
  : World * Response :=
  match req_user with
  | None => (w, reply 401 (Message "User not authenticated"))
  | Some user =>
      let pageNum := parseInt svc (text_or "1" page) in
      let limitNum := parseInt svc (text_or "20" limit) in
      let skip := skip_of pageNum limitNum in
      let query := {| q_userId := Claims.id user;
                      q_folder := filter_of folder;
                      q_fileType := filter_of fileType |} in
      let found := List.filter (matches query) (files w) in
      match skip_limit svc skip limitNum (sort_desc found) with
      | None => list_caught w
      | Some files =>
          let totalFiles := List.length found in
          let totalPages := ceil_div totalFiles limitNum in
          (w, reply 200
                (FileList (List.map File.select_without_s3Key files)
                   {| page := js_num pageNum;
                      limit := js_num limitNum;
                      totalFiles := totalFiles;
                      totalPages := totalPages;
                      hasNext := js_lt (js_num pageNum) totalPages;
                      hasPrev := js_lt (Num 1) (js_num pageNum) |}))
      end
  end.

(** [GET /:id/download], behind [authenticate]. *)
Definition downloadLink (req_user : option Claims.t) (id : ObjectId) (w : World)
  : World * Response :=
  match req_user with
  | None => (w, reply 401 (Message "User not authenticated"))
  | Some user =>
      match findOwned id user w with
      | None => (w, reply 404 (Message "File not found"))
      | Some file =>
          let signedUrl :=
            s3_getSignedUrl svc (File.s3Key file) 3600%N
              ("attachment; filename=" ++ dquote ++ File.originalName file
               ++ dquote) in
          (w, reply 200 (DownloadLink signedUrl (File.originalName file) 3600%N))
      end
  end.

(** [DELETE /:id], behind [authenticate]. *)
Definition deleteFile (req_user : option Claims.t) (id : ObjectId) (w : World)
  : World * Response :=
  match req_user with
  | None => (w, reply 401 (Message "User not authenticated"))
  | Some user =>
      match findOwned id user w with
      | None => (w, reply 404 (Message "File not found"))
      | Some file =>
          let w :=
            if s3_deleteObject svc (File.s3Key file) then
              log (S3DeleteObject (File.s3Key file) true)
                (set_bucket (base.delete (File.s3Key file) (bucket w)) w)
            else
              log (ConsoleError "S3 deletion error:")
                (log (S3DeleteObject (File.s3Key file) false) w) in
          let w :=
            log (FileDelete (File._id file))
              (set_files
                 (List.filter
                    (fun f => negb (String.eqb (File._id f) (File._id file)))
                    (files w)) w) in
          (w, reply 200
                (Deleted "File deleted successfully" (File.originalName file)))
      end
  end.

(** [GET /:id], behind [authenticate]. *)
Definition fileInfo (req_user : option Claims.t) (id : ObjectId) (w : World)
  : World * Response :=
  match req_user with
  | None => (w, reply 401 (Message "User not authenticated"))
  | Some user =>
      match findOwned id user w with
      | None => (w, reply 404 (Message "File not found"))
      | Some file =>
          (w, reply 200 (FileInfo (File.select_without_s3Key file)))
      end
  end.

(** A protected route: the guard, then the handler on what it hands on. *)
Definition protected (now : N) (authorization : option string)
    (handler : option Claims.t -> World -> World * Response) (w : World)
  : World * Response :=
  match authenticate now authorization with
  | Next user => handler (Some user) w
  | Halt res => (w, res)
  end.

End Handlers.

(** ** A reference instance of the services

    Small, executable stand-ins: a token is the claim set, the secret, the
    issue time and the expiry joined by bars; a password hash is the
    password between brackets; the k-th identifier is k in decimal. They
    serve to run the handlers on concrete requests. *)

Module Demo.

Definition decimal (n : N) : string :=
  NilEmpty.string_of_uint (N.to_uint n).

Definition parse_decimal (s : string) : option N :=
  match s with
  | EmptyString => None
  | _ => option_map N.of_uint (NilEmpty.uint_of_string s)
  end.

Definition bar : ascii := "|"%char.

Definition sign (c : Claims.t) (secret : string) (now lifetime : N) : string :=
  Claims.id c ++ "|" ++ Claims.email c ++ "|" ++ Claims.username c ++ "|"
  ++ secret ++ "|" ++ decimal now ++ "|" ++ decimal (now + lifetime).

Definition verify (token secret : string) (now : N) : option Claims.t :=
  match Js.split bar token with
  | [i; e; u; k; _; exp] =>
      match parse_decimal exp with
      | Some t =>
          if String.eqb k secret && (now <? t)%N
          then Some {| Claims.id := i; Claims.email := e; Claims.username := u |}
          else None
      | None => None
      end
  | _ => None
  end.

Definition hash (password : string) : string := "[" ++ password ++ "]".

Definition parse_int (s : string) : option Z :=
  option_map Z.of_N (parse_decimal s).

(** A negative [skip] is rejected; a [limit] of zero is no limit and a
    negative one counts as its absolute value. *)
Definition window (skip limit : option Z) (l : list File.t)
  : option (list File.t) :=
  match skip, limit with
  | Some s, Some n =>
      if (s <? 0)%Z then None
      else
        let rest := List.skipn (Z.to_nat s) l in
        Some (if (n =? 0)%Z then rest else List.firstn (Z.abs_nat n) rest)
  | _, _ => None
  end.

(** Uploads of an empty body are refused, saves of a document without a
    name or with a key already present are refused, and objects under
    [users/bob/] cannot be deleted. *)
Definition svc : Services :=
  {| jwt_sign := sign;
     jwt_verify := verify;
     bcrypt_compare := fun password hashed => String.eqb (hash password) hashed;
     uuidv4 := fun k => "u" ++ decimal (N.of_nat k);
     newObjectId := fun k => "f" ++ decimal (N.of_nat k);
     s3_upload := fun key blob =>
       if Js.truthy blob then Some ("https://s3.test/" ++ key) else None;
     s3_deleteObject := fun key => negb (Js.startsWith "users/bob/" key);
     s3_getSignedUrl := fun key expires disposition =>
       "https://s3.test/" ++ key ++ "?expires=" ++ decimal expires;
     file_save := fun coll doc =>
       Js.truthy (File.originalName doc)
       && negb (List.existsb
                  (fun f => String.eqb (File.s3Key f) (File.s3Key doc)) coll);
     parseInt := parse_int;
     skip_limit := window |}.

Definition env : Env :=
  {| JWT_SECRET := Some "access-secret";
     JWT_REFRESH_SECRET := Some "refresh-secret";
     AWS_ACCESS_KEY_ID := Some "AKIA";
     AWS_SECRET_ACCESS_KEY := Some "shh";
     AWS_REGION := Some "eu-west-1";
     AWS_S3_BUCKET := Some "bucket" |}.


(** The same process without the access-token secret. *)
Definition env_no_jwt : Env :=
  {| JWT_SECRET := None;
     JWT_REFRESH_SECRET := Some "refresh-secret";
     AWS_ACCESS_KEY_ID := Some "AKIA";
     AWS_SECRET_ACCESS_KEY := Some "shh";
     AWS_REGION := Some "eu-west-1";
     AWS_S3_BUCKET := Some "bucket" |}.

Definition alice : User.t :=
  {| User._id := "a1"; User.username := "alice"; User.email := "a@x.com";
     User.password := hash "secret1"; User.refreshToken := None |}.

Definition bob : User.t :=
  {| User._id := "b2"; User.username := "bob"; User.email := "b@x.com";
     User.password := hash "hunter22"; User.refreshToken := None |}.

Definition report : File.t :=
  {| File._id := "f0"; File.filename := "u0.pdf";
     File.originalName := "report.pdf"; File.size := 10;
     File.url := "https://s3.test/users/alice/docs/u0.pdf";
     File.s3Key := "users/alice/docs/u0.pdf";
     File.contentType := "application/pdf"; File.fileType := "document";
     File.folder := "docs"; File.userId := "a1"; File.uploadTime := 100 |}.

Definition notes : File.t :=
  {| File._id := "f7"; File.filename := "u7.txt";
     File.originalName := "notes.txt"; File.size := 3;
     File.url := "https://s3.test/users/bob/u7.txt";
     File.s3Key := "users/bob/u7.txt";
     File.contentType := "text/plain"; File.fileType := "document";
     File.folder := "/"; File.userId := "b2"; File.uploadTime := 200 |}.

Definition world : World :=
  {| users := [alice; bob];
     files := [report; notes];
     bucket := {[ "users/alice/docs/u0.pdf" := "%PDF-1.7 .";
                  "users/bob/u7.txt" := "abc" ]};
     draws := 8;
     journal := [] |}.

(** The access token a login of alice at time 50 returns. *)
Definition access_token : string :=
  sign (User.payload alice) "access-secret" 50 access_lifetime.

(** The refresh token of the same login, and the world it leaves. *)
Definition refresh_token : string :=
  sign (User.payload alice) "refresh-secret" 50 refresh_lifetime.

Definition session : World :=
  fst (login svc env 50 (Some "a@x.com") (Some "secret1") world).

Definition pdf : Multer.file :=
  {| Multer.originalname := "plan.pdf"; Multer.mimetype := "application/pdf";
     Multer.size := 4; Multer.buffer := "%PDF" |}.

(** A file whose body the storage refuses. *)
Definition hollow : Multer.file :=
  {| Multer.originalname := "empty.txt"; Multer.mimetype := "text/plain";
     Multer.size := 0; Multer.buffer := "" |}.

(** A file whose name is blank once trimmed, which the save refuses. *)
Definition nameless : Multer.file :=
  {| Multer.originalname := " "; Multer.mimetype := "text/plain";
     Multer.size := 2; Multer.buffer := "hi" |}.

Definition readme : Multer.file :=
  {| Multer.originalname := "README"; Multer.mimetype := "text/plain";
     Multer.size := 5; Multer.buffer := "hello" |}.

End Demo.

(** ** Registration, folders and the upload filter *)

(** What registration needs beyond [Services]: [bcrypt_hash password rounds
    n] is [bcrypt.hash] with the salt of the [n]-th draw, and [user_save
    collection doc] tells whether saving the user passes validation and the
    unique indexes. *)
Record Registrar := {
  bcrypt_hash : string -> N -> nat -> string;
  user_save : list User.t -> User.t -> bool
}.

(** The bodies of the routes below, beside those of [Body]. *)
Inductive Content :=
| Plain (b : Body)
| Registered (message : string) (user : Claims.t)   (* message, user summary *)
| Folders (folders : list string).

Record Answer := { code : nat; content : Content }.

Definition answer (c : nat) (b : Content) : Answer :=
  {| code := c; content := b |}.

(** [User.findOne({ $or: [{ email }, { username }] })]. Mongoose casts the
    filter with the setters of the schema: the email is looked up in lower
    case and trimmed, the name trimmed. *)
Definition findUserByEmailOrUsername (email username : string)
    (us : list User.t) : option User.t :=
  List.find (fun u => String.eqb (User.email u) (Js.trim (toLowerCase email))
                      || String.eqb (User.username u) (Js.trim username)) us.

Definition saltRounds : N := 12.

(** [POST /register]. [new User] applies the setters of the schema: it
    trims [username], and lowercases and trims [email]. The message of a
    conflict compares the stored email with the email as submitted. *)
Definition register (svc : Services) (reg : Registrar)
    (username email password : option string) (w : World) : World * Answer :=
  match present username, present email, present password with
  | Some username, Some email, Some password =>
      if (utf16_length password <? 6)%nat then
        (w, answer 400
              (Plain (Message "Password must be at least 6 characters long")))
      else
        match findUserByEmailOrUsername email username (users w) with
        | Some existingUser =>
            (w, answer 409
                  (Plain (Message
                     (if String.eqb (User.email existingUser) email
                      then "Email already exists"
                      else "Username already exists"))))
        | None =>
            let hashedPassword := bcrypt_hash reg password saltRounds (draws w) in
            let w := draw w in
            let newUser :=
              {| User._id := newObjectId svc (draws w);
                 User.username := Js.trim username;
                 User.email := Js.trim (toLowerCase email);
                 User.password := hashedPassword;
                 User.refreshToken := None |} in
            let w := draw w in
            if user_save reg (users w) newUser then
              (log (UserSave (User._id newUser))
                 (set_users (users w ++ [newUser]) w),
               answer 201
                 (Registered "User registered successfully"
                    (User.payload newUser)))
            else
              (log (ConsoleError "Registration error:") w,
               answer 500 (Plain (Message "Server error during registration")))
        end
  | _, _, _ => (w, answer 400 (Plain (Message "All fields are required")))
  end.

(** Insert a string before the first one greater than it. *)
Fixpoint insert_string (x : string) (l : list string) : list string :=
  match l with
  | [] => [x]
  | y :: rest =>
      if String.leb x y then x :: l else y :: insert_string x rest
  end.

(** [folders.sort()]: strings by their code units. *)
Definition sort_strings (l : list string) : list string :=
  List.fold_right insert_string [] l.

(** [File.distinct('folder', { userId })]: each folder of the user's
    records once. *)
Definition distinctFolders (userId : ObjectId) (fs : list File.t) : list string :=
  List.nodup String.string_dec
    (List.map File.folder
       (List.filter (fun f => String.eqb (File.userId f) userId) fs)).

(** [GET /folders/list], behind [authenticate]. *)
Definition listFolders (req_user : option Claims.t) (w : World)
  : World * Answer :=
  match req_user with
  | None => (w, answer 401 (Plain (Message "User not authenticated")))
  | Some user =>
      (w, answer 200
            (Folders (sort_strings (distinctFolders (Claims.id user) (files w)))))
  end.

(** The [fileFilter] of the multer configuration: whether the callback is
    given [true] rather than the error [File type not allowed]. *)
Definition allowedMimes : list string :=
  [ "image/"; "video/"; "audio/"; "application/pdf"; "application/msword";
    "application/vnd.openxmlformats-officedocument"; "text/"; "application/zip";
    "application/x-rar-compressed"; "application/json"; "application/xml" ].

Definition fileFilter (mimetype : string) : bool :=
  List.existsb (fun mime => Js.startsWith mime mimetype) allowedMimes.

(** The [enum] of [fileType] in the File schema. *)
Definition fileTypeEnum : list string :=
  [ "image"; "document"; "video"; "audio"; "archive"; "other" ].

(** [suffix] ends [s]. *)
Fixpoint endsWith (suffix s : string) : bool :=
  String.eqb suffix s
  || match s with
     | EmptyString => false
     | String _ rest => endsWith suffix rest
     end.

(** The documents a listing is to show, in the words of its contract: those
    of the caller, in the folder asked for, trimmed as the schema stores
    folders, unless the [folder] parameter is no string or a blank one,
    and of the type asked for unless the [fileType] parameter is no string
    or a blank one. *)
Definition selected (user : Claims.t) (folder fileType : option QueryValue)
    (f : File.t) : bool :=
  String.eqb (File.userId f) (Claims.id user)
  && match folder with
     | Some (QString d) =>
         String.eqb (Js.trim d) "" || String.eqb (File.folder f) (Js.trim d)
     | _ => true
     end
  && match fileType with
     | Some (QString t) =>
         String.eqb (Js.trim t) "" || String.eqb (File.fileType f) t
     | _ => true
     end.


(** By descending upload time. *)
Definition newer_first (a b : File.t) : Prop :=
  (File.uploadTime b <= File.uploadTime a)%N.

Definition string_le (a b : string) : Prop := String.leb a b = true.

(** A reference instance of [Registrar], in line with [Demo.svc]: the hash
    is the one its [bcrypt_compare] recognises, and a user is saved when
    the name has 3 to 30 characters and neither the name nor the email is
    taken. *)
Module Sample.

Definition registrar : Registrar :=
  {| bcrypt_hash := fun password _ _ => Demo.hash password;
     user_save := fun coll u =>
       (3 <=? String.length (User.username u))%nat
       && (String.length (User.username u) <=? 30)%nat
       && negb (List.existsb
                  (fun v => String.eqb (User.email v) (User.email u)
                            || String.eqb (User.username v) (User.username u))
                  coll) |}.

(** The world after carol has registered. *)
Definition registered : World :=
  fst (register Demo.svc registrar (Some "carol") (Some "c@x.com")
         (Some "letmein") Demo.world).

(** Alice with a second record, in the folder [/]. *)
Definition photo : File.t :=
  {| File._id := "f3"; File.filename := "u3.png";
     File.originalName := "cat.png"; File.size := 7;
     File.url := "https://s3.test/users/alice/u3.png";
     File.s3Key := "users/alice/u3.png";
     File.contentType := "image/png"; File.fileType := "image";
     File.folder := "/"; File.userId := "a1"; File.uploadTime := 300 |}.

Definition library : World :=
  set_files [Demo.report; Demo.notes; photo] Demo.world.

(** Two users and a record with identifiers in canonical form. *)
Definition erin : Claims.t :=
  {| Claims.id := "64b7f1a2c3d4e5f601234567"; Claims.email := "e@x.com";
     Claims.username := "erin" |}.

Definition frank : Claims.t :=
  {| Claims.id := "64b7f1a2c3d4e5f601234568"; Claims.email := "f@x.com";
     Claims.username := "frank" |}.

Definition ledger : File.t :=
  {| File._id := "64b7f1a2c3d4e5f6012345aa"; File.filename := "u5.csv";
     File.originalName := "ledger.csv"; File.size := 9;
     File.url := "https://s3.test/users/frank/u5.csv";
     File.s3Key := "users/frank/u5.csv";
     File.contentType := "text/csv"; File.fileType := "document";
     File.folder := "/"; File.userId := "64b7f1a2c3d4e5f601234568";
     File.uploadTime := 400 |}.

Definition vault : World := set_files [ledger] Demo.world.

(** Frank with a second record, in the folder [taxes], and one of erin's. *)
Definition receipt : File.t :=
  {| File._id := "64b7f1a2c3d4e5f6012345ab"; File.filename := "u6.pdf";
     File.originalName := "receipt.pdf"; File.size := 3;
     File.url := "https://s3.test/users/frank/taxes/u6.pdf";
     File.s3Key := "users/frank/taxes/u6.pdf";
     File.contentType := "application/pdf"; File.fileType := "document";
     File.folder := "taxes"; File.userId := "64b7f1a2c3d4e5f601234568";
     File.uploadTime := 500 |}.

Definition sketch : File.t :=
  {| File._id := "64b7f1a2c3d4e5f6012345ac"; File.filename := "u7.png";
     File.originalName := "sketch.png"; File.size := 5;
     File.url := "https://s3.test/users/erin/art/u7.png";
     File.s3Key := "users/erin/art/u7.png";
     File.contentType := "image/png"; File.fileType := "image";
     File.folder := "art"; File.userId := "64b7f1a2c3d4e5f601234567";
     File.uploadTime := 600 |}.

Definition shelves : World := set_files [ledger; receipt; sketch] Demo.world.

End Sample.

(** The record [doc] is one that an upload by [user] into [folder] at time
    [now] creates: it belongs to the user, its key lies under the user's
    prefix, and its folder, time and type are those the handler derives. *)
Definition uploaded_by (user : Claims.t) (folder : string) (now : N)
    (doc : File.t) : Prop :=
  File.userId doc = Claims.id user
  /\ Js.startsWith
       ("users/" ++ Js.or_else (Claims.username user)
                      (Js.or_else (Claims.email user) (Claims.id user)) ++ "/")
       (File.s3Key doc) = true
  /\ File.folder doc = Js.trim folder
  /\ File.uploadTime doc = now
  /\ File.fileType doc = getFileType (File.contentType doc).

(** ** Vocabulary of the properties *)

(** Following the specification's words, for the comparison with
    [fileExtension]: the extension of a file name is what follows its last
    dot, and a name without a dot has none. *)
Definition extension_of (name : string) : string :=
  match Js.split dot name with
  | [] | [_] => ""
  | segments => default "" (Js.pop segments)
  end.

(** Every character of [s] satisfies [p]. *)
Fixpoint all_chars (p : ascii -> bool) (s : string) : bool :=
  match s with
  | EmptyString => true
  | String c rest => p c && all_chars p rest
  end.

(** The first and the last character of a string, if any. *)
Definition first_char (s : string) : option ascii :=
  match s with
  | EmptyString => None
  | String c _ => Some c
  end.

Fixpoint last_char (s : string) : option ascii :=
  match s with
  | EmptyString => None
  | String c EmptyString => Some c
  | String _ rest => last_char rest
  end.

(** The lines written by [console.error], the blob writes with their
    outcome and the documents whose save was attempted, among the effects
    [j]. *)
Definition console_of (j : list Effect) : list string :=
  omap (fun e => match e with ConsoleError line => Some line | _ => None end) j.

Definition blob_writes_of (j : list Effect) : list (string * bool) :=
  omap (fun e => match e with S3Upload key ok => Some (key, ok) | _ => None end) j.

(** In [j], every save of a document comes right after a blob write that
    succeeded for that document's key. *)
Definition saves_follow_writes (j : list Effect) : Prop :=
  forall before doc ok after,
    j = (before ++ FileSave doc ok :: after)%list ->
    exists earlier, before = (earlier ++ [S3Upload (File.s3Key doc) true])%list.

(** The line the inner [catch] of the upload loop logs for a file. *)
Definition upload_error_line (file : Multer.file) : string :=
  "Error uploading file " ++ Multer.originalname file ++ ":".


(** Only ASCII characters: on such a string [Js.trim] and [toLowerCase] are
    those of JavaScript. *)
Definition ascii_only (s : string) : bool :=
  all_chars (fun c => (nat_of_ascii c <? 128)%nat) s.

Definition ascii_opt (o : option string) : bool :=
  match o with
  | Some s => ascii_only s
  | None => true
  end.

(** The canonical string of an ObjectId: 24 hexadecimal digits, in lower
    case. On such a string the cast of Mongoose is the identity. *)
Definition is_hex_digit (c : ascii) : bool :=
  let n := nat_of_ascii c in
  (48 <=? n)%nat && (n <=? 57)%nat || (97 <=? n)%nat && (n <=? 102)%nat.

Definition isObjectId (s : string) : bool :=
  (String.length s =? 24)%nat && all_chars is_hex_digit s.

(** The key under which the upload loop writes [file] when it starts the
    file at draw [n]. *)
Definition upload_key (svc : Services) (user : Claims.t) (folder : string)
    (n : nat) (file : Multer.file) : string :=
  generateS3Key
    (Js.or_else (Claims.username user)
       (Js.or_else (Claims.email user) (Claims.id user)))
    folder (uuidv4 svc n ++ "." ++ fileExtension (Multer.originalname file)).

(** The document the loop builds for [file] at draw [n], as far as its
    fields do not go through a setter of the schema ([filename],
    [originalName] and [folder] are trimmed and left open here; [url] is
    what the storage answers). *)
Definition built_for (svc : Services) (now : N) (user : Claims.t)
    (folder : string) (n : nat) (file : Multer.file) (doc : File.t) : Prop :=
  File.s3Key doc = upload_key svc user folder n file
  /\ File._id doc = newObjectId svc (S n)
  /\ File.size doc = Multer.size file
  /\ File.contentType doc = Multer.mimetype file
  /\ File.fileType doc = getFileType (Multer.mimetype file)
  /\ File.userId doc = Claims.id user
  /\ File.uploadTime doc = now.

(** What the storage and the collection make of a batch, file by file,
    from draw [n] and collection [coll] on. The verdict of a file is what
    the services answer: the storage rejects the blob written under the
    file's key, and the failure is logged; or the storage accepts it and
    gives its location, the collection rejects the document built for the
    file, and the failure is logged; or both accept (verdict [true]) and
    the document joins the collection. Whatever the verdict, the run goes
    on with the next file. *)
Inductive batch_run (svc : Services) (now : N) (user : Claims.t)
    (folder : string)
  : nat -> list File.t -> list Multer.file -> list bool -> list Effect
    -> list File.t -> Prop :=
| run_done n coll : batch_run svc now user folder n coll [] [] [] []
| run_blob_rejected n coll file batch verdicts added created :
    s3_upload svc (upload_key svc user folder n file) (Multer.buffer file)
    = None ->
    batch_run svc now user folder (S n) coll batch verdicts added created ->
    batch_run svc now user folder n coll (file :: batch) (false :: verdicts)
      (S3Upload (upload_key svc user folder n file) false
         :: ConsoleError (upload_error_line file) :: added)
      created
| run_save_rejected n coll file doc batch verdicts added created :
    built_for svc now user folder n file doc ->
    s3_upload svc (File.s3Key doc) (Multer.buffer file) = Some (File.url doc) ->
    file_save svc coll doc = false ->
    batch_run svc now user folder (S (S n)) coll batch verdicts added created ->
    batch_run svc now user folder n coll (file :: batch) (false :: verdicts)
      (S3Upload (File.s3Key doc) true :: FileSave doc false
         :: ConsoleError (upload_error_line file) :: added)
      created
| run_stored n coll file doc batch verdicts added created :
    built_for svc now user folder n file doc ->
    s3_upload svc (File.s3Key doc) (Multer.buffer file) = Some (File.url doc) ->
    file_save svc coll doc = true ->
    batch_run svc now user folder (S (S n)) (coll ++ [doc])%list batch verdicts
      added created ->
    batch_run svc now user folder n coll (file :: batch) (true :: verdicts)
      (S3Upload (File.s3Key doc) true :: FileSave doc true :: added)
      (doc :: created).


(** The refresh token [first] no longer opens a session of the user
    [id] in world [w]: it is not the stored one, and no refresh that
    presents it is answered 200. *)
Definition token_revoked (svc : Services) (env : Env) (id : ObjectId)
    (first : string) (w : World) : Prop :=
  (forall user, findUserById id (users w) = Some user ->
                User.refreshToken user <> Some first)
  /\ (forall now, status (snd (refresh svc env now (Some first) w)) <> 200).

(** ** Proof steps *)

(** Peel the effects of one file off a decomposition of the journal. *)
Ltac peel before H :=
  destruct before as [|? before]; simpl in H;
  [try discriminate H|injection H as <- H].

Example split_bearer : Js.split space "Bearer abc.def" = ["Bearer"; "abc.def"].
Proof. reflexivity. Qed.

Example split_empty : Js.split space "" = [""].
Proof. reflexivity. Qed.

Example split_double : Js.split space "Bearer  x" = ["Bearer"; ""; "x"].
Proof. reflexivity. Qed.

Example key_plain : generateS3Key "alice" "/docs/" "u.pdf" = "users/alice/docs/u.pdf".
Proof. reflexivity. Qed.

Example key_root : generateS3Key "alice" "/" "u.pdf" = "users/alice/u.pdf".
Proof. reflexivity. Qed.

Example key_inner : generateS3Key "alice" "//a//b//" "u.pdf" = "users/alice/a//b/u.pdf".
Proof. reflexivity. Qed.

Example ext_pdf : fileExtension "report.final.pdf" = "pdf".
Proof. reflexivity. Qed.

Example ext_none : fileExtension "README" = "README".
Proof. reflexivity. Qed.

Example trim_ex : Js.trim "  a b  " = "a b".
Proof. reflexivity. Qed.

Example demo_verify_sign :
  Demo.verify (Demo.sign (User.payload Demo.alice) "k" 5 10) "k" 14
  = Some (User.payload Demo.alice).
Proof. vm_compute. reflexivity. Qed.

Example demo_verify_expired :
  Demo.verify (Demo.sign (User.payload Demo.alice) "k" 5 10) "k" 15 = None.
Proof. vm_compute. reflexivity. Qed.

Example demo_login :
  status (snd (login Demo.svc Demo.env 50 (Some "a@x.com") (Some "secret1") Demo.world)) = 200.
Proof. vm_compute. reflexivity. Qed.

Example demo_upload :
  snd (upload Demo.svc Demo.env 50 (Some (User.payload Demo.alice))
         (Some [Demo.hollow; Demo.pdf; Demo.nameless]) (Some "/docs/") Demo.world)
  = reply 201 (Uploaded 1 [ {| File.s_id := "f10"; File.s_filename := "u9.pdf";
       File.s_originalName := "plan.pdf"; File.s_size := 4;
       File.s_contentType := "application/pdf"; File.s_fileType := "document";
       File.s_folder := "/docs/"; File.s_uploadTime := 50 |} ]).
Proof. vm_compute. reflexivity. Qed.

(** ** The verification guard *)

Lemma split_no_sep (sep : ascii) (s : string) :
  Js.occurs sep s = false -> Js.split sep s = [s].
Proof.
  induction s as [|c s IH]; simpl; [reflexivity|].
  intros H. apply orb_false_iff in H as [Hc Hs].
  rewrite Hc, (IH Hs). reflexivity.
Qed.

Lemma split_at_first_sep (sep : ascii) (a b : string) :
  Js.occurs sep a = false ->
  Js.split sep (a ++ String sep b) = a :: Js.split sep b.
Proof.
  induction a as [|c a IH]; simpl.
  - intros _. rewrite Ascii.eqb_refl. reflexivity.
  - intros H. apply orb_false_iff in H as [Hc Ha].
    rewrite Hc, (IH Ha). reflexivity.
Qed.

Lemma truthy_app_sep (a b : string) (c : ascii) :
  Js.truthy (a ++ String c b) = true.
Proof. destruct a; reflexivity. Qed.

Lemma headerToken_scheme_token (scheme token : string) :
  Js.occurs space scheme = false ->
  Js.occurs space token = false ->
  headerToken (Some (scheme ++ " " ++ token)) = Some token.
Proof.
  intros Hs Ht. unfold headerToken.
  change (scheme ++ " " ++ token) with (scheme ++ String space token).
  rewrite truthy_app_sep, (split_at_first_sep _ _ _ Hs), (split_no_sep _ _ Ht).
  reflexivity.
Qed.

Lemma headerToken_one_segment (bare : string) :
  Js.occurs space bare = false ->
  present (headerToken (Some bare)) = None.
Proof.
  intros Hb. unfold headerToken.
  destruct (Js.truthy bare) eqn:E.
  - rewrite (split_no_sep _ _ Hb). reflexivity.
  - simpl. rewrite E. reflexivity.
Qed.

(** C10. The guard takes the second space-separated segment of the
    Authorization header as the token and never looks at the scheme word:
    with any space-free word before it, a token that verifies under the
    configured secret authenticates as the claims it decodes to; a header
    without a second segment (a bare token included) and an absent header
    are answered 401 "Access token required" whatever the environment, so
    also when the secret is not configured. *)
Theorem authenticate_second_segment
    (svc : Services) (env : Env) (now : N) (scheme token bare : string)
    (Hscheme : Js.occurs space scheme = false)
    (Htoken : Js.occurs space token = false)
    (Hnonempty : Js.truthy token = true)
    (Hbare : Js.occurs space bare = false) :
  (forall jwtSecret decoded,
      present (JWT_SECRET env) = Some jwtSecret ->
      jwt_verify svc token jwtSecret now = Some decoded ->
      authenticate svc env now (Some (scheme ++ " " ++ token)) = Next decoded)
  /\ authenticate svc env now (Some bare)
     = Halt (reply 401 (Message "Access token required"))
  /\ authenticate svc env now None
     = Halt (reply 401 (Message "Access token required")).
Proof.
  split; [|split].
  - intros jwtSecret decoded Hsecret Hverify. unfold authenticate.
    rewrite (headerToken_scheme_token _ _ Hscheme Htoken). simpl.
    rewrite Hnonempty, Hsecret, Hverify. reflexivity.
  - unfold authenticate. rewrite (headerToken_one_segment _ Hbare). reflexivity.
  - reflexivity.
Qed.

Lemma authenticate_second_segment_witness :
  authenticate Demo.svc Demo.env 60 (Some ("Basic" ++ " " ++ Demo.access_token))
  = Next (User.payload Demo.alice)
  /\ authenticate Demo.svc Demo.env_no_jwt 60 (Some Demo.access_token)
     = Halt (reply 401 (Message "Access token required")).
Proof.
  split.
  - refine (proj1 (authenticate_second_segment Demo.svc Demo.env 60 "Basic"
                     Demo.access_token "x" _ _ _ _) "access-secret" _ _ _);
      vm_compute; reflexivity.
  - refine (proj1 (proj2 (authenticate_second_segment Demo.svc Demo.env_no_jwt 60
                     "Basic" Demo.access_token Demo.access_token _ _ _ _)));
      vm_compute; reflexivity.
Defined.

(** ** Key derivation *)

Lemma drop_leading_first (p : ascii -> bool) (s : string) (c : ascii) :
  first_char (Js.drop_leading p s) = Some c -> p c = false.
Proof.
  induction s as [|d s IH]; simpl; [discriminate|].
  destruct (p d) eqn:E; [exact IH|].
  simpl. intros [= <-]. exact E.
Qed.

Lemma drop_trailing_keep (p : ascii -> bool) (c : ascii) (s : string) :
  p c = false ->
  Js.drop_trailing p (String c s) = String c (Js.drop_trailing p s).
Proof.
  intros E. simpl. destruct (Js.drop_trailing p s); [rewrite E|]; reflexivity.
Qed.

Lemma drop_trailing_last (p : ascii -> bool) (s : string) (c : ascii) :
  last_char (Js.drop_trailing p s) = Some c -> p c = false.
Proof.
  induction s as [|d s IH]; simpl; [discriminate|].
  destruct (Js.drop_trailing p s) as [|e kept] eqn:E.
  - destruct (p d) eqn:Ed; simpl; [discriminate|]. intros [= <-]. exact Ed.
  - intros H. apply IH. exact H.
Qed.

Lemma drop_trailing_first (p : ascii -> bool) (s : string) (c : ascii) :
  first_char (Js.drop_trailing p s) = Some c -> first_char s = Some c.
Proof.
  destruct s as [|d s]; simpl; [discriminate|].
  destruct (Js.drop_trailing p s); [destruct (p d)|]; simpl; congruence.
Qed.

Lemma append_cons (c : ascii) (a b : string) :
  String c a ++ b = String c (a ++ b).
Proof. reflexivity. Qed.

Lemma append_assoc (a b c : string) : (a ++ b) ++ c = a ++ b ++ c.
Proof.
  induction a as [|x a IH]; [reflexivity|].
  rewrite !append_cons, IH. reflexivity.
Qed.

Lemma drop_leading_split (p : ascii -> bool) (s : string) :
  exists removed,
    s = removed ++ Js.drop_leading p s /\ all_chars p removed = true.
Proof.
  induction s as [|d s [removed [Heq Hall]]]; simpl.
  - exists "". split; reflexivity.
  - destruct (p d) eqn:E.
    + exists (String d removed). simpl. rewrite E, Hall, append_cons.
      split; [f_equal; exact Heq|reflexivity].
    + exists "". split; reflexivity.
Qed.

Lemma drop_trailing_split (p : ascii -> bool) (s : string) :
  exists removed,
    s = Js.drop_trailing p s ++ removed /\ all_chars p removed = true.
Proof.
  induction s as [|d s [removed [Heq Hall]]]; simpl.
  - exists "". split; reflexivity.
  - destruct (Js.drop_trailing p s) as [|e kept] eqn:E.
    + destruct (p d) eqn:Ed.
      * exists (String d removed). simpl. rewrite Ed, Hall.
        split; [change (String d s = String d removed)|reflexivity].
        f_equal; exact Heq.
      * exists removed. rewrite append_cons.
        split; [f_equal; exact Heq|exact Hall].
    + exists removed. rewrite append_cons.
      split; [f_equal; exact Heq|exact Hall].
Qed.

(** The sanitized folder is the folder without a run of slashes at each
    end, and it neither starts nor ends with a slash. *)
Lemma sanitizeFolder_strips (folder : string) :
  (exists leading trailing,
      folder = leading ++ sanitizeFolder folder ++ trailing
      /\ all_chars is_slash leading = true
      /\ all_chars is_slash trailing = true)
  /\ first_char (sanitizeFolder folder) <> Some slash
  /\ last_char (sanitizeFolder folder) <> Some slash.
Proof.
  unfold sanitizeFolder. split; [|split].
  - destruct (drop_leading_split is_slash folder) as [leading [H1 A1]].
    destruct (drop_trailing_split is_slash (Js.drop_leading is_slash folder))
      as [trailing [H2 A2]].
    exists leading, trailing. split; [|split; assumption].
    rewrite <- H2. exact H1.
  - intros H. apply drop_trailing_first, drop_leading_first in H.
    unfold is_slash in H. rewrite Ascii.eqb_refl in H. discriminate.
  - intros H. apply drop_trailing_last in H.
    unfold is_slash in H. rewrite Ascii.eqb_refl in H. discriminate.
Qed.

Lemma drop_leading_all (p : ascii -> bool) (s : string) :
  all_chars p s = true -> Js.drop_leading p s = "".
Proof.
  induction s as [|d s IH]; simpl; [reflexivity|].
  intros H. apply andb_true_iff in H as [Hd Hs]. rewrite Hd. exact (IH Hs).
Qed.

(** A folder made of slashes only, the empty one included, is sanitized to
    the empty string and contributes no segment to the key. *)
Lemma generateS3Key_no_folder (username folder filename : string) :
  all_chars is_slash folder = true ->
  generateS3Key username folder filename = "users/" ++ username ++ "/" ++ filename.
Proof.
  intros H. unfold generateS3Key, sanitizeFolder.
  rewrite (drop_leading_all _ _ H). reflexivity.
Qed.

(** Otherwise the key is the owner's prefix, the sanitized folder and the
    file name, separated by slashes. *)
Lemma generateS3Key_with_folder (username folder filename : string) :
  sanitizeFolder folder <> "" ->
  generateS3Key username folder filename
  = "users/" ++ username ++ "/" ++ sanitizeFolder folder ++ "/" ++ filename.
Proof.
  intros H. unfold generateS3Key.
  destruct (sanitizeFolder folder) as [|c s] eqn:E; [contradiction|].
  simpl Js.truthy. cbv iota.
  rewrite (append_assoc (String c s)). reflexivity.
Qed.

Lemma split_with_sep (sep : ascii) (s : string) :
  Js.occurs sep s = true ->
  exists a b rest, Js.split sep s = a :: b :: rest.
Proof.
  induction s as [|c s IH]; simpl; [discriminate|].
  destruct (Ascii.eqb c sep) eqn:E; simpl.
  - intros _. destruct (Js.split sep s) as [|x l] eqn:Es.
    + destruct s; simpl in Es; [discriminate|].
      destruct (Ascii.eqb a sep); [discriminate|].
      destruct (Js.split sep s); discriminate.
    + eauto.
  - intros H. destruct (IH H) as (a & b & rest & ->). eauto.
Qed.

(** For a name with a dot, the handler's extension is the one of the
    specification. *)
Lemma fileExtension_dotted (name : string) :
  Js.occurs dot name = true -> fileExtension name = extension_of name.
Proof.
  intros H. unfold fileExtension, extension_of.
  destruct (split_with_sep _ _ H) as (a & b & rest & ->).
  destruct (Js.pop (a :: b :: rest)) as [seg|]; [|reflexivity].
  simpl. unfold Js.or_else. destruct seg; reflexivity.
Qed.

(** For a name without a dot, it is the whole name. *)
Lemma fileExtension_dotless (name : string) :
  Js.occurs dot name = false ->
  fileExtension name = name /\ extension_of name = "".
Proof.
  intros H. unfold fileExtension, extension_of.
  rewrite (split_no_sep _ _ H). simpl. unfold Js.or_else.
  destruct name; split; reflexivity.
Qed.

(** C9, at the file name [README]: the name has no extension, and the
    handler appends the whole name to the identifier it drew, so that the
    stored file name is [u8.README] and the key
    [users/alice/docs/u8.README]. The key itself follows the template
    (see [generateS3Key_no_folder], [generateS3Key_with_folder] and
    [sanitizeFolder_strips]). *)
Theorem upload_dotless_name_as_extension :
  extension_of (Multer.originalname Demo.readme) = ""
  /\ fileExtension (Multer.originalname Demo.readme) = "README"
  /\ List.map (fun f => (File.filename f, File.s3Key f))
       (files (fst (upload Demo.svc Demo.env 50 (Some (User.payload Demo.alice))
                      (Some [Demo.readme]) (Some "/docs/") Demo.world)))
     = [ ("u0.pdf", "users/alice/docs/u0.pdf");
         ("u7.txt", "users/bob/u7.txt");
         ("u8.README", "users/alice/docs/u8.README") ].
Proof. vm_compute. repeat split; reflexivity. Qed.

(** ** Login and refresh *)

(** C7. A login that fails because no user has the email and a login that
    fails because the password does not match the stored hash are answered
    by the same response, status 401 with the message "Invalid
    credentials", and neither changes the stores. The user of an email is
    looked up as the store does it, by the email trimmed and in lower
    case; the emails are ASCII. *)
Theorem login_failures_indistinguishable
    (svc : Services) (env : Env) (now1 now2 : N)
    (email1 password1 email2 password2 : string) (w1 w2 : World) (user : User.t)
    (Hascii1 : ascii_only email1 = true) (Hascii2 : ascii_only email2 = true)
    (Hemail1 : Js.truthy email1 = true) (Hpassword1 : Js.truthy password1 = true)
    (Hunknown : forall u, In u (users w1) ->
                  User.email u <> Js.trim (toLowerCase email1))
    (Hemail2 : Js.truthy email2 = true) (Hpassword2 : Js.truthy password2 = true)
    (Hknown : In user (users w2)
              /\ User.email user = Js.trim (toLowerCase email2)
              /\ forall u, In u (users w2) ->
                    User.email u = User.email user -> u = user)
    (Hmismatch : bcrypt_compare svc password2 (User.password user) = false) :
  let unknown := login svc env now1 (Some email1) (Some password1) w1 in
  let mismatch := login svc env now2 (Some email2) (Some password2) w2 in
  snd unknown = snd mismatch
  /\ snd unknown = reply 401 (Message "Invalid credentials")
  /\ fst unknown = w1 /\ fst mismatch = w2.
Proof.
  assert (Hnone : findUserByEmail email1 (users w1) = None).
  { unfold findUserByEmail.
    destruct (List.find _ (users w1)) as [u|] eqn:E; [|reflexivity].
    apply List.find_some in E as [Hin Heq]. apply String.eqb_eq in Heq.
    destruct (Hunknown u Hin Heq). }
  assert (Hsome : findUserByEmail email2 (users w2) = Some user).
  { destruct Hknown as (Hin & Hmail & Hone). unfold findUserByEmail.
    destruct (List.find _ (users w2)) as [u|] eqn:E.
    - apply List.find_some in E as [Hu Heq]. apply String.eqb_eq in Heq.
      f_equal. apply Hone; [exact Hu|]. rewrite Heq, Hmail. reflexivity.
    - apply (List.find_none _ _ E) in Hin.
      rewrite Hmail, String.eqb_refl in Hin. discriminate Hin. }
  unfold login. simpl.
  rewrite Hemail1, Hpassword1, Hemail2, Hpassword2, Hnone, Hsome, Hmismatch.
  simpl. repeat split.
Qed.

Lemma login_failures_indistinguishable_witness :
  snd (login Demo.svc Demo.env 50 (Some "nobody@x.com") (Some "secret1") Demo.world)
  = snd (login Demo.svc Demo.env 51 (Some " A@X.com ") (Some "wrong") Demo.world).
Proof.
  refine (proj1 (login_failures_indistinguishable Demo.svc Demo.env 50 51
                   "nobody@x.com" "secret1" " A@X.com " "wrong"
                   Demo.world Demo.world Demo.alice _ _ _ _ _ _ _ _ _)).
  all: try (vm_compute; reflexivity).
  - intros u [<-|[<-|[]]]; vm_compute; discriminate.
  - split; [left; reflexivity|]. split; [vm_compute; reflexivity|].
    intros u [<-|[<-|[]]]; [reflexivity|vm_compute; discriminate].
Defined.

(** A 401 of the login handler has one of these two causes. *)
Lemma login_401_causes
    (svc : Services) (env : Env) (now : N) (email password : option string)
    (w : World) :
  status (snd (login svc env now email password w)) = 401 ->
  exists e p, present email = Some e /\ present password = Some p
    /\ (findUserByEmail e (users w) = None
        \/ exists user, findUserByEmail e (users w) = Some user
             /\ bcrypt_compare svc p (User.password user) = false).
Proof.
  unfold login.
  destruct (present email) as [e|]; [|simpl; destruct (present password); discriminate].
  destruct (present password) as [p|]; [|discriminate].
  intros H. exists e, p. split; [reflexivity|]. split; [reflexivity|].
  destruct (findUserByEmail e (users w)) as [user|]; [|left; reflexivity].
  right. exists user. split; [reflexivity|].
  destruct (bcrypt_compare svc p (User.password user)); [|reflexivity].
  simpl in H.
  destruct (present (JWT_SECRET env)), (present (JWT_REFRESH_SECRET env));
    simpl in H; discriminate.
Qed.

(** C6. A refresh whose token verifies under the refresh secret never
    changes a stored user, hence no stored refresh token; it is refused
    when no user has the decoded identifier and when the user's stored
    refresh token is not the presented string; and when it is answered 200
    the body is an access token alone, newly signed over the user's claims,
    the user's stored refresh token being the presented one. *)
Theorem refresh_checks_stored_token
    (svc : Services) (env : Env) (now : N) (token jwtRefreshSecret : string)
    (decoded : Claims.t) (w : World)
    (Hsecret : present (JWT_REFRESH_SECRET env) = Some jwtRefreshSecret)
    (Hverify : jwt_verify svc token jwtRefreshSecret now = Some decoded) :
  let result := refresh svc env now (Some token) w in
  let stored := findUserById (Claims.id decoded) (users w) in
  users (fst result) = users w
  /\ (stored = None -> status (snd result) <> 200)
  /\ (forall user, stored = Some user ->
        User.refreshToken user <> Some token -> status (snd result) <> 200)
  /\ (status (snd result) = 200 ->
        exists user jwtSecret,
          stored = Some user
          /\ User.refreshToken user = Some token
          /\ present (JWT_SECRET env) = Some jwtSecret
          /\ snd result
             = reply 200 (AccessToken (jwt_sign svc (User.payload user)
                                         jwtSecret now access_lifetime)))
  /\ (forall user jwtSecret,
        Js.truthy token = true ->
        present (JWT_SECRET env) = Some jwtSecret ->
        stored = Some user ->
        User.refreshToken user = Some token ->
        result = (w, reply 200 (AccessToken (jwt_sign svc (User.payload user)
                                               jwtSecret now access_lifetime)))).
Proof.
  unfold refresh. simpl.
  destruct (Js.truthy token) eqn:Htruthy;
    [|repeat split; simpl; try discriminate; intros; discriminate].
  rewrite Hsecret.
  destruct (present (JWT_SECRET env)) as [jwtSecret|];
    [|repeat split; simpl; try discriminate; intros; discriminate].
  rewrite Hverify.
  destruct (findUserById (Claims.id decoded) (users w)) as [user|];
    [|repeat split; simpl; try discriminate; intros; discriminate].
  destruct (bool_decide (User.refreshToken user = Some token)) eqn:Heq.
  - apply bool_decide_eq_true in Heq. repeat split; simpl.
    + discriminate.
    + intros u [= <-] Hne. contradiction.
    + intros _. exists user, jwtSecret. repeat split. exact Heq.
    + intros u s _ [= <-] [= <-] _. reflexivity.
  - apply bool_decide_eq_false in Heq. repeat split; simpl; try discriminate.
    intros u s _ _ [= <-] Hu. contradiction.
Qed.

Lemma refresh_checks_stored_token_witness :
  refresh Demo.svc Demo.env 60 (Some Demo.refresh_token) Demo.session
  = (Demo.session,
     reply 200 (AccessToken (Demo.sign (User.payload Demo.alice) "access-secret"
                               60 access_lifetime)))
  /\ status (snd (refresh Demo.svc Demo.env 60 (Some Demo.refresh_token) Demo.world))
     <> 200.
Proof.
  split.
  - refine (proj2 (proj2 (proj2 (proj2
             (refresh_checks_stored_token Demo.svc Demo.env 60 Demo.refresh_token
                "refresh-secret" (User.payload Demo.alice) Demo.session _ _))))
             (User.with_refreshToken Demo.alice (Some Demo.refresh_token))
             "access-secret" _ _ _ _);
      vm_compute; reflexivity.
  - refine (proj1 (proj2 (proj2
             (refresh_checks_stored_token Demo.svc Demo.env 60 Demo.refresh_token
                "refresh-secret" (User.payload Demo.alice) Demo.world _ _)))
             Demo.alice _ _);
      vm_compute; (reflexivity || discriminate).
Defined.

(** ** Listing *)

(** C8. For every caller, page and limit, a [folder] filter given as the
    empty string, a [fileType] filter given as the empty string, or both,
    produce the response (files and pagination block) and the world of the
    same request without that filter. *)
Theorem list_empty_filter_is_no_filter
    (svc : Services) (req_user : option Claims.t)
    (folder fileType page limit : option QueryValue) (w : World) :
  listFiles svc req_user (Some (QString "")) fileType page limit w
  = listFiles svc req_user None fileType page limit w
  /\ listFiles svc req_user folder (Some (QString "")) page limit w
     = listFiles svc req_user folder None page limit w
  /\ listFiles svc req_user (Some (QString "")) (Some (QString "")) page limit w
     = listFiles svc req_user None None page limit w.
Proof.
  unfold listFiles. destruct req_user as [user|]; repeat split; reflexivity.
Qed.

(** The same holds of a filter made of white space only. *)
Lemma list_blank_filter_is_no_filter
    (svc : Services) (req_user : option Claims.t) (blank : string)
    (fileType page limit : option QueryValue) (w : World) :
  Js.trim blank = "" ->
  listFiles svc req_user (Some (QString blank)) fileType page limit w
  = listFiles svc req_user None fileType page limit w.
Proof.
  intros H. unfold listFiles, filter_of. rewrite H.
  rewrite andb_false_r. reflexivity.
Qed.

(** A filter that is not blank does select: alice's only file is in
    [docs], so that the folder [music] lists nothing while the empty
    string lists the file. *)
Example list_demo :
  snd (listFiles Demo.svc (Some (User.payload Demo.alice))
         (Some (QString "music")) None None None Demo.world)
  = reply 200 (FileList []
      {| page := Num 1; limit := Num 20; totalFiles := 0; totalPages := Num 0;
         hasNext := false; hasPrev := false |})
  /\ snd (listFiles Demo.svc (Some (User.payload Demo.alice))
            (Some (QString "")) None None None Demo.world)
     = reply 200 (FileList [File.select_without_s3Key Demo.report]
         {| page := Num 1; limit := Num 20; totalFiles := 1; totalPages := Num 1;
            hasNext := false; hasPrev := false |}).
Proof. vm_compute. split; reflexivity. Qed.

(** ** Ownership *)

Lemma findOwned_sound (id : ObjectId) (user : Claims.t) (w : World) (f : File.t) :
  findOwned id user w = Some f ->
  In f (files w) /\ File._id f = id /\ File.userId f = Claims.id user.
Proof.
  unfold findOwned. intros H. apply List.find_some in H as [Hin Hb].
  apply andb_true_iff in Hb as [Hi Hu].
  apply String.eqb_eq in Hi. apply String.eqb_eq in Hu. auto.
Qed.

Lemma findOwned_none (id : ObjectId) (user : Claims.t) (w : World) :
  (forall f, In f (files w) -> File._id f = id ->
             File.userId f <> Claims.id user) ->
  findOwned id user w = None.
Proof.
  intros H. destruct (findOwned id user w) as [f|] eqn:E; [|reflexivity].
  apply findOwned_sound in E as (Hin & Hi & Hu).
  exfalso. exact (H f Hin Hi Hu).
Qed.

(** C3. Let a stored record belong to someone other than the caller, its
    identifier being that of no other record. Reading it, asking for its
    download link and deleting it are each answered 404 "File not found"
    and leave the world as it is, which is the response the three
    operations give for an identifier [id0] that no record has; and a
    lookup only ever returns a record that has both the requested
    identifier and the caller's user identifier. The identifiers are
    ObjectIds in canonical form, those of the request as well as those of
    the caller and of the stored records. *)
Theorem foreign_record_is_not_found
    (svc : Services) (user : Claims.t) (w : World) (record : File.t)
    (w0 : World) (id0 : ObjectId)
    (Hcaller : isObjectId (Claims.id user) = true)
    (Hids : forall f, In f (files w) -> isObjectId (File._id f) = true)
    (Hids0 : forall f, In f (files w0) -> isObjectId (File._id f) = true)
    (Hid0 : isObjectId id0 = true)
    (Hstored : In record (files w))
    (Hforeign : File.userId record <> Claims.id user)
    (Hunique : forall f, In f (files w) -> File._id f = File._id record -> f = record)
    (Habsent : forall f, In f (files w0) -> File._id f <> id0) :
  let id := File._id record in
  let notFound := reply 404 (Message "File not found") in
  fileInfo (Some user) id w = (w, notFound)
  /\ downloadLink svc (Some user) id w = (w, notFound)
  /\ deleteFile svc (Some user) id w = (w, notFound)
  /\ fileInfo (Some user) id0 w0 = (w0, notFound)
  /\ downloadLink svc (Some user) id0 w0 = (w0, notFound)
  /\ deleteFile svc (Some user) id0 w0 = (w0, notFound)
  /\ (forall anyId found,
        isObjectId anyId = true ->
        findOwned anyId user w = Some found ->
        File._id found = anyId /\ File.userId found = Claims.id user).
Proof.
  intros id notFound.
  assert (H : findOwned id user w = None).
  { apply findOwned_none. intros f Hin Hid.
    rewrite (Hunique f Hin Hid). exact Hforeign. }
  assert (H0 : findOwned id0 user w0 = None).
  { apply findOwned_none. intros f Hin Hid. destruct (Habsent f Hin Hid). }
  unfold fileInfo, downloadLink, deleteFile. rewrite H, H0.
  do 6 (split; [reflexivity|]).
  intros anyId found _ Hfound. split; apply (findOwned_sound _ _ _ _ Hfound).
Qed.

Lemma foreign_record_is_not_found_witness :
  fileInfo (Some Sample.erin) "64b7f1a2c3d4e5f6012345aa" Sample.vault
  = (Sample.vault, reply 404 (Message "File not found"))
  /\ fileInfo (Some Sample.erin) "64b7f1a2c3d4e5f6012345ff" Sample.vault
     = (Sample.vault, reply 404 (Message "File not found")).
Proof.
  pose proof (foreign_record_is_not_found Demo.svc Sample.erin
                Sample.vault Sample.ledger Sample.vault
                "64b7f1a2c3d4e5f6012345ff") as H.
  simpl in H. split; apply H.
  all: try reflexivity.
  all: try (left; reflexivity).
  all: try (vm_compute; discriminate).
  all: intros f [<-|[]]; vm_compute; (reflexivity || discriminate).
Defined.

(** What the owner of [notes] gets for the same identifier. *)
Example owner_reads_record :
  snd (fileInfo (Some (User.payload Demo.bob)) "f7" Demo.world)
  = reply 200 (FileInfo (File.select_without_s3Key Demo.notes)).
Proof. vm_compute. reflexivity. Qed.

(** ** Deletion *)

Lemma insert_desc_In (f g : File.t) (l : list File.t) :
  In g (insert_desc f l) -> g = f \/ In g l.
Proof.
  induction l as [|h l IH]; simpl.
  - intros [<-|[]]. left. reflexivity.
  - destruct (File.uploadTime h <? File.uploadTime f)%N; simpl.
    + intros [<-|[<-|H]]; auto.
    + intros [<-|H]; [auto|]. destruct (IH H); auto.
Qed.

Lemma sort_desc_In (g : File.t) (l : list File.t) :
  In g (sort_desc l) -> In g l.
Proof.
  induction l as [|h l IH]; simpl; [auto|].
  intros H. apply insert_desc_In in H as [<-|H]; auto.
Qed.

(** What a listing returns was stored, belongs to the caller, and is shown
    without its key, provided the cursor only returns documents it was
    given. *)
Lemma listFiles_sound
    (svc : Services) (user : Claims.t)
    (folder fileType page limit : option QueryValue) (w : World)
    (listed : list File.view) (pg : Pagination) (v : File.view) :
  (forall skip lim l l', skip_limit svc skip lim l = Some l' -> incl l' l) ->
  snd (listFiles svc (Some user) folder fileType page limit w)
  = reply 200 (FileList listed pg) ->
  In v listed ->
  exists f, In f (files w) /\ v = File.select_without_s3Key f
            /\ File.userId f = Claims.id user.
Proof.
  intros Hwindow. unfold listFiles.
  destruct (skip_limit svc _ _ _) as [l'|] eqn:E; [|discriminate].
  simpl. intros [= <- _] Hin.
  apply List.in_map_iff in Hin as (f & <- & Hf).
  apply (Hwindow _ _ _ _ E), sort_desc_In, List.filter_In in Hf as [Hf Hm].
  exists f. split; [exact Hf|]. split; [reflexivity|].
  unfold matches in Hm. simpl in Hm.
  apply andb_true_iff in Hm as [Hm _]. apply andb_true_iff in Hm as [Hm _].
  apply String.eqb_eq. exact Hm.
Qed.

(** C5. Deleting a record the caller owns is answered 200 with the
    record's original name whether or not the blob deletion succeeds.
    Afterwards no stored record has the identifier, the other records are
    kept, reading the identifier is answered 404, and no listing of the
    caller shows it (for a cursor that only returns documents it was
    given). When the blob deletion fails, the failure is logged between the
    attempt and the deletion of the record, and the bucket is unchanged. *)
Theorem delete_tolerates_blob_failure
    (svc : Services) (user : Claims.t) (id : ObjectId) (w : World) (file : File.t)
    (Hfound : findOwned id user w = Some file) :
  let result := deleteFile svc (Some user) id w in
  let w' := fst result in
  snd result
  = reply 200 (Deleted "File deleted successfully" (File.originalName file))
  /\ (forall f, In f (files w') -> File._id f <> id)
  /\ (forall f, In f (files w) -> File._id f <> id -> In f (files w'))
  /\ fileInfo (Some user) id w' = (w', reply 404 (Message "File not found"))
  /\ ((forall skip lim l l', skip_limit svc skip lim l = Some l' -> incl l' l) ->
      forall folder fileType page limit listed pg v,
        snd (listFiles svc (Some user) folder fileType page limit w')
        = reply 200 (FileList listed pg) ->
        In v listed -> File.v_id v <> id)
  /\ (s3_deleteObject svc (File.s3Key file) = false ->
        journal w'
        = (journal w ++ [S3DeleteObject (File.s3Key file) false;
                         ConsoleError "S3 deletion error:";
                         FileDelete (File._id file)])%list
        /\ bucket w' = bucket w).
Proof.
  intros result w'.
  destruct (findOwned_sound _ _ _ _ Hfound) as (Hin & Hid & Howner).
  assert (Hfiles : files w'
    = List.filter (fun f => negb (String.eqb (File._id f) id)) (files w)).
  { subst w' result. unfold deleteFile. rewrite Hfound, Hid.
    destruct (s3_deleteObject svc (File.s3Key file)); reflexivity. }
  assert (Hgone : forall f, In f (files w') -> File._id f <> id).
  { intros f Hf. rewrite Hfiles in Hf. apply List.filter_In in Hf as [_ Hf].
    apply negb_true_iff, String.eqb_neq in Hf. exact Hf. }
  split; [|split; [exact Hgone|split; [|split; [|split]]]].
  - subst result. unfold deleteFile. rewrite Hfound.
    destruct (s3_deleteObject svc (File.s3Key file)); reflexivity.
  - intros f Hf Hne. rewrite Hfiles. apply List.filter_In. split; [exact Hf|].
    apply negb_true_iff, String.eqb_neq. exact Hne.
  - unfold fileInfo. rewrite findOwned_none; [reflexivity|].
    intros f Hf Hi. destruct (Hgone f Hf Hi).
  - intros Hwindow folder fileType page limit listed pg v Hlist Hv.
    destruct (listFiles_sound _ _ _ _ _ _ _ _ _ _ Hwindow Hlist Hv)
      as (f & Hf & -> & _).
    simpl. exact (Hgone f Hf).
  - intros Hfail. subst w' result. unfold deleteFile.
    rewrite Hfound, Hfail. simpl. rewrite <- !app_assoc. split; reflexivity.
Qed.

Lemma skipn_In (n : nat) (l : list File.t) (x : File.t) :
  In x (List.skipn n l) -> In x l.
Proof.
  intros H. rewrite <- (List.firstn_skipn n l). apply List.in_or_app. auto.
Qed.

Lemma firstn_In (n : nat) (l : list File.t) (x : File.t) :
  In x (List.firstn n l) -> In x l.
Proof.
  intros H. rewrite <- (List.firstn_skipn n l). apply List.in_or_app. auto.
Qed.

Lemma window_incl (skip lim : option Z) (l l' : list File.t) :
  Demo.window skip lim l = Some l' -> incl l' l.
Proof.
  unfold Demo.window. destruct skip as [s|], lim as [n|]; try discriminate.
  destruct (s <? 0)%Z; [discriminate|]. intros [= <-] x Hx.
  destruct (n =? 0)%Z.
  - eapply skipn_In; exact Hx.
  - eapply skipn_In, firstn_In; exact Hx.
Qed.

Lemma delete_tolerates_blob_failure_witness :
  let w' := fst (deleteFile Demo.svc (Some (User.payload Demo.bob)) "f7"
                   Demo.world) in
  s3_deleteObject Demo.svc (File.s3Key Demo.notes) = false
  /\ snd (deleteFile Demo.svc (Some (User.payload Demo.bob)) "f7" Demo.world)
     = reply 200 (Deleted "File deleted successfully" "notes.txt")
  /\ fileInfo (Some (User.payload Demo.bob)) "f7" w'
     = (w', reply 404 (Message "File not found"))
  /\ (forall folder fileType page limit listed pg v,
        snd (listFiles Demo.svc (Some (User.payload Demo.bob))
               folder fileType page limit w')
        = reply 200 (FileList listed pg) ->
        In v listed -> File.v_id v <> "f7").
Proof.
  pose proof (delete_tolerates_blob_failure Demo.svc (User.payload Demo.bob)
                "f7" Demo.world Demo.notes eq_refl)
    as (Hreply & _ & _ & Hinfo & Hlist & _).
  split; [reflexivity|]. split; [exact Hreply|]. split; [exact Hinfo|].
  exact (Hlist window_incl).
Defined.

(** ** Batch upload *)

(** One turn of the loop ends in one of three ways, each decided by what
    the storage and the collection answer. *)
Lemma uploadOne_outcome
    (svc : Services) (now : N) (user : Claims.t) (folder : string)
    (file : Multer.file) (w : World) :
  let result := uploadOne svc now user folder file w in
  let key := upload_key svc user folder (draws w) file in
  let caught := ConsoleError (upload_error_line file) in
  users (fst result) = users w
  /\ ((s3_upload svc key (Multer.buffer file) = None
       /\ snd result = None
       /\ files (fst result) = files w
       /\ bucket (fst result) = bucket w
       /\ draws (fst result) = S (draws w)
       /\ journal (fst result) = (journal w ++ [S3Upload key false; caught])%list)
      \/ (exists doc,
            built_for svc now user folder (draws w) file doc
            /\ s3_upload svc (File.s3Key doc) (Multer.buffer file)
               = Some (File.url doc)
            /\ file_save svc (files w) doc = false
            /\ snd result = None
            /\ files (fst result) = files w
            /\ bucket (fst result)
               = <[File.s3Key doc := Multer.buffer file]> (bucket w)
            /\ draws (fst result) = S (S (draws w))
            /\ journal (fst result)
               = (journal w ++ [S3Upload (File.s3Key doc) true;
                                FileSave doc false; caught])%list)
      \/ (exists doc,
            built_for svc now user folder (draws w) file doc
            /\ s3_upload svc (File.s3Key doc) (Multer.buffer file)
               = Some (File.url doc)
            /\ file_save svc (files w) doc = true
            /\ snd result = Some (File.summarize doc)
            /\ files (fst result) = (files w ++ [doc])%list
            /\ bucket (fst result)
               = <[File.s3Key doc := Multer.buffer file]> (bucket w)
            /\ draws (fst result) = S (S (draws w))
            /\ journal (fst result)
               = (journal w ++ [S3Upload (File.s3Key doc) true;
                                FileSave doc true])%list)).
Proof.
  unfold uploadOne. fold (upload_key svc user folder (draws w) file).
  destruct (s3_upload svc _ _) as [location|] eqn:Hblob.
  - destruct (file_save svc _ _) eqn:Hsave; simpl.
    + split; [reflexivity|]. right. right.
      match type of Hsave with file_save _ _ ?doc = _ => exists doc end.
      repeat split; simpl; rewrite <- ?List.app_assoc;
        first [reflexivity|exact Hblob|exact Hsave].
    + split; [reflexivity|]. right. left.
      match type of Hsave with file_save _ _ ?doc = _ => exists doc end.
      repeat split; simpl; rewrite <- ?List.app_assoc;
        first [reflexivity|exact Hblob|exact Hsave].
  - simpl. split; [reflexivity|]. left.
    repeat split; simpl; rewrite <- ?List.app_assoc; reflexivity.
Qed.

(** The loop runs the batch against the services. *)
Lemma uploadEach_run
    (svc : Services) (now : N) (user : Claims.t) (folder : string)
    (batch : list Multer.file) :
  forall (w : World) (uploadedFiles : list File.summary),
  exists verdicts added created,
    let result := uploadEach svc now user folder batch w uploadedFiles in
    batch_run svc now user folder (draws w) (files w) batch verdicts added created
    /\ journal (fst result) = (journal w ++ added)%list
    /\ files (fst result) = (files w ++ created)%list
    /\ users (fst result) = users w
    /\ snd result = (uploadedFiles ++ List.map File.summarize created)%list
    /\ (forall key, is_Some (bucket w !! key) ->
                    is_Some (bucket (fst result) !! key))
    /\ (forall doc, In doc created ->
                    is_Some (bucket (fst result) !! File.s3Key doc)).
Proof.
  induction batch as [|file batch IH]; intros w uploadedFiles.
  - exists [], [], []. simpl. rewrite !app_nil_r.
    repeat split; auto using run_done. intros doc [].
  - simpl.
    pose proof (uploadOne_outcome svc now user folder file w) as Hone.
    destruct (uploadOne svc now user folder file w) as [w1 pushed].
    simpl in Hone. destruct Hone as [Husers Hone].
    destruct Hone as [(Hblob & -> & Hf & Hb & Hn & Hj)
                     |[(doc & Hdoc & Hblob & Hsave & -> & Hf & Hb & Hn & Hj)
                      |(doc & Hdoc & Hblob & Hsave & -> & Hf & Hb & Hn & Hj)]].
    + destruct (IH w1 uploadedFiles)
        as (verdicts & added & created & Ht & Hj' & Hf' & Hu' & Hs' & Hk' & Hd').
      rewrite Hn, Hf in Ht.
      exists (false :: verdicts),
        (S3Upload (upload_key svc user folder (draws w) file) false
           :: ConsoleError (upload_error_line file) :: added), created.
      simpl in *. rewrite Hj', Hf', Hu', Hs', Hj, Hf, Husers, <- List.app_assoc.
      repeat split; auto using run_blob_rejected.
      intros k Hk. apply Hk'. rewrite Hb. exact Hk.
    + destruct (IH w1 uploadedFiles)
        as (verdicts & added & created & Ht & Hj' & Hf' & Hu' & Hs' & Hk' & Hd').
      rewrite Hn, Hf in Ht.
      exists (false :: verdicts), (S3Upload (File.s3Key doc) true
        :: FileSave doc false :: ConsoleError (upload_error_line file) :: added),
        created.
      simpl in *. rewrite Hj', Hf', Hu', Hs', Hj, Hf, Husers, <- List.app_assoc.
      repeat split; auto using run_save_rejected.
      intros k Hk. apply Hk'. rewrite Hb.
      destruct (decide (File.s3Key doc = k)) as [->|Hne].
      * rewrite lookup_insert_eq. eauto.
      * rewrite lookup_insert_ne; assumption.
    + destruct (IH w1 (uploadedFiles ++ [File.summarize doc])%list)
        as (verdicts & added & created & Ht & Hj' & Hf' & Hu' & Hs' & Hk' & Hd').
      rewrite Hn, Hf in Ht.
      exists (true :: verdicts), (S3Upload (File.s3Key doc) true
        :: FileSave doc true :: added), (doc :: created).
      simpl in *. rewrite Hj', Hf', Hu', Hs', Hj, Hf, Husers, <- !List.app_assoc.
      repeat split; auto using run_stored.
      * intros k Hk. apply Hk'. rewrite Hb.
        destruct (decide (File.s3Key doc = k)) as [->|Hne].
        -- rewrite lookup_insert_eq. eauto.
        -- rewrite lookup_insert_ne; assumption.
      * intros d [<-|Hd]; [|auto]. apply Hk'. rewrite Hb.
        rewrite lookup_insert_eq. eauto.
Qed.



Lemma batch_run_written svc now user folder n coll batch verdicts added created :
  batch_run svc now user folder n coll batch verdicts added created ->
  forall doc, In doc created ->
  In (S3Upload (File.s3Key doc) true) added /\ In (FileSave doc true) added.
Proof.
  induction 1 as [| ? ? ? ? ? ? ? _ _ IH | ? ? ? ? ? ? ? ? _ _ _ _ IH
                  | ? ? ? ? ? ? ? ? _ _ _ _ IH]; simpl; intros doc0.
  - tauto.
  - intros H. destruct (IH _ H). auto.
  - intros H. destruct (IH _ H). auto.
  - intros [<-|H]; [auto|]. destruct (IH _ H). auto.
Qed.

(** Every save is that of a document whose blob the storage accepted, and
    whose [url] is the location the storage gave. *)
Lemma batch_run_saves svc now user folder n coll batch verdicts added created :
  batch_run svc now user folder n coll batch verdicts added created ->
  forall doc ok, In (FileSave doc ok) added ->
  exists file, In file batch
    /\ s3_upload svc (File.s3Key doc) (Multer.buffer file) = Some (File.url doc).
Proof.
  induction 1 as [| ? ? file ? ? ? ? _ _ IH
                  | ? ? file d ? ? ? ? _ Hblob _ _ IH
                  | ? ? file d ? ? ? ? _ Hblob _ _ IH]; simpl; intros doc0 ok.
  - tauto.
  - intros [H|[H|H]]; try discriminate H.
    destruct (IH _ _ H) as (f & Hf & Hs). eauto.
  - intros [H|[H|[H|H]]]; try discriminate H.
    + injection H as <- _. eauto.
    + destruct (IH _ _ H) as (f & Hf & Hs). eauto.
  - intros [H|[H|H]]; try discriminate H.
    + injection H as <- _. eauto.
    + destruct (IH _ _ H) as (f & Hf & Hs). eauto.
Qed.

(** The outcome the journal gives of a blob write is the one the storage
    gave. *)
Lemma batch_run_writes svc now user folder n coll batch verdicts added created :
  batch_run svc now user folder n coll batch verdicts added created ->
  forall key ok, In (S3Upload key ok) added ->
  exists file, In file batch
    /\ (ok = true <-> is_Some (s3_upload svc key (Multer.buffer file))).
Proof.
  assert (Hyes : forall (o : option string) l, o = Some l ->
                   true = true <-> is_Some o).
  { intros o l ->. split; eauto. }
  assert (Hno : forall o : option string, o = None ->
                  false = true <-> is_Some o).
  { intros o ->. split; [discriminate|]. intros [x Hx]. discriminate Hx. }
  induction 1 as [| ? ? file ? ? ? ? Hblob _ IH
                  | ? ? file d ? ? ? ? _ Hblob _ _ IH
                  | ? ? file d ? ? ? ? _ Hblob _ _ IH]; simpl; intros key ok.
  - tauto.
  - intros [H|[H|H]]; try discriminate H.
    + injection H as <- <-. exists file. split; [auto|]. apply Hno, Hblob.
    + destruct (IH _ _ H) as (f & Hf & Hs). eauto.
  - intros [H|[H|[H|H]]]; try discriminate H.
    + injection H as <- <-. exists file. split; [auto|]. eapply Hyes, Hblob.
    + destruct (IH _ _ H) as (f & Hf & Hs). eauto.
  - intros [H|[H|H]]; try discriminate H.
    + injection H as <- <-. exists file. split; [auto|]. eapply Hyes, Hblob.
    + destruct (IH _ _ H) as (f & Hf & Hs). eauto.
Qed.

Lemma batch_run_order svc now user folder n coll batch verdicts added created :
  batch_run svc now user folder n coll batch verdicts added created ->
  saves_follow_writes added.
Proof.
  induction 1 as [| ? ? file ? ? ? ? _ _ IH
                  | ? ? file doc ? ? ? ? _ _ _ _ IH
                  | ? ? file doc ? ? ? ? _ _ _ _ IH];
    intros before doc0 ok after Heq.
  - destruct before; discriminate Heq.
  - peel before Heq. peel before Heq.
    destruct (IH _ _ _ _ Heq) as [earlier ->].
    eexists (_ :: _ :: earlier). reflexivity.
  - peel before Heq. peel before Heq.
    { injection Heq as <- <- <-. exists []. reflexivity. }
    peel before Heq.
    destruct (IH _ _ _ _ Heq) as [earlier ->].
    eexists (_ :: _ :: _ :: earlier). reflexivity.
  - peel before Heq. peel before Heq.
    { injection Heq as <- <- <-. exists []. reflexivity. }
    destruct (IH _ _ _ _ Heq) as [earlier ->].
    eexists (_ :: _ :: earlier). reflexivity.
Qed.




(** C2. Whatever the request, the effects of an upload are such that every
    save of a document comes right after a blob write that succeeded for
    the key of that document; the storage did accept a blob of the batch
    under that key, and the location it answered is the [url] of the
    document saved; the journal tells a blob write accepted exactly when
    the storage accepted it; every record the upload adds has a key under
    which the bucket holds an object, written by this upload; and whenever
    the upload has any effect, its effects and the records it adds are
    those of a run of the batch against the storage and the collection, in
    which a document reaches the collection only after the storage has
    accepted its blob. *)
Theorem upload_saves_after_blob_write
    (svc : Services) (env : Env) (now : N) (req_user : option Claims.t)
    (req_files : option (list Multer.file)) (folder : option string)
    (w : World) :
  let w' := fst (upload svc env now req_user req_files folder w) in
  exists added,
    journal w' = (journal w ++ added)%list
    /\ saves_follow_writes added
    /\ (forall doc ok, In (FileSave doc ok) added ->
          In (S3Upload (File.s3Key doc) true) added
          /\ exists file, In file (default [] req_files)
               /\ s3_upload svc (File.s3Key doc) (Multer.buffer file)
                  = Some (File.url doc))
    /\ (forall key ok, In (S3Upload key ok) added ->
          exists file, In file (default [] req_files)
            /\ (ok = true
                <-> is_Some (s3_upload svc key (Multer.buffer file))))
    /\ (forall doc, In doc (files w') ->
          In doc (files w)
          \/ (In (S3Upload (File.s3Key doc) true) added
              /\ In (FileSave doc true) added
              /\ is_Some (bucket w' !! File.s3Key doc)))
    /\ (added = []
        \/ exists user verdicts created,
             req_user = Some user
             /\ batch_run svc now user (default "/" (present folder))
                  (draws w) (files w) (default [] req_files)
                  verdicts added created
             /\ files w' = (files w ++ created)%list).
Proof.
  assert (Hnone : forall (w0 : World) (batch : list Multer.file),
    exists added, journal w0 = (journal w0 ++ added)%list
      /\ saves_follow_writes added
      /\ (forall doc ok, In (FileSave doc ok) added ->
            In (S3Upload (File.s3Key doc) true) added
            /\ exists file, In file batch
                 /\ s3_upload svc (File.s3Key doc) (Multer.buffer file)
                    = Some (File.url doc))
      /\ (forall key ok, In (S3Upload key ok) added ->
            exists file, In file batch
              /\ (ok = true
                  <-> is_Some (s3_upload svc key (Multer.buffer file))))
      /\ (forall doc, In doc (files w0) ->
            In doc (files w0)
            \/ (In (S3Upload (File.s3Key doc) true) added
                /\ In (FileSave doc true) added
                /\ is_Some (bucket w0 !! File.s3Key doc)))
      /\ (added = []
          \/ exists user verdicts created,
               req_user = Some user
               /\ batch_run svc now user (default "/" (present folder))
                    (draws w) (files w) batch verdicts added created
               /\ files w0 = (files w ++ created)%list)).
  { intros w0 batch0. exists []. rewrite app_nil_r. split; [reflexivity|].
    split; [|split; [intros ? ? []|split; [intros ? ? []|auto]]].
    intros before ? ? ? H. destruct before; discriminate H. }
  unfold upload. destruct req_user as [user|]; [|apply Hnone].
  destruct (validateAWSConfig env); simpl; [|apply Hnone].
  destruct req_files as [[|file batch]|]; try apply Hnone.
  destruct (uploadEach_run svc now user (default "/" (present folder))
              (file :: batch) w [])
    as (verdicts & added & created & Ht & Hj & Hf & _ & _ & _ & Hd).
  destruct (uploadEach svc now user _ (file :: batch) w []) as [w' uploaded].
  simpl in Hj, Hf, Hd.
  assert (Hw : forall r : Response, fst (w', r) = w') by reflexivity.
  pose proof (batch_run_order _ _ _ _ _ _ _ _ _ _ Ht) as Horder.
  exists added.
  destruct (List.length uploaded =? 0)%nat; rewrite Hw.
  all: split; [exact Hj|]; split; [exact Horder|].
  all: split;
    [ intros doc ok Hin; split;
      [ apply List.in_split in Hin as (before & after & Heq);
        destruct (Horder _ _ _ _ Heq) as [earlier ->];
        rewrite Heq, <- !List.app_assoc;
        apply List.in_or_app; right; left; reflexivity
      | exact (batch_run_saves _ _ _ _ _ _ _ _ _ _ Ht _ _ Hin) ]
    | ].
  all: split; [exact (batch_run_writes _ _ _ _ _ _ _ _ _ _ Ht)|].
  all: split;
    [ intros doc Hin; rewrite Hf in Hin;
      apply List.in_app_or in Hin as [Hin|Hin]; [left; exact Hin|];
      right;
      destruct (batch_run_written _ _ _ _ _ _ _ _ _ _ Ht _ Hin) as [Hw1 Hw2];
      split; [exact Hw1|split; [exact Hw2|exact (Hd _ Hin)]]
    | right; exists user, verdicts, created; auto ].
Qed.

(** ** Sessions *)

Lemma findUserById_storeUser (u : User.t) (us : list User.t) :
  (exists v, In v us /\ User._id v = User._id u) ->
  findUserById (User._id u) (storeUser u us) = Some u.
Proof.
  unfold findUserById, storeUser.
  induction us as [|x us IH]; intros (v & Hin & Hid); [destruct Hin|].
  simpl. destruct (String.eqb (User._id x) (User._id u)) eqn:E.
  - rewrite String.eqb_refl. reflexivity.
  - rewrite E. apply IH. destruct Hin as [->|Hin].
    + apply String.eqb_neq in E. contradiction.
    + exists v. auto.
Qed.

(** What a successful login did. *)
Lemma login_ok_inv
    (svc : Services) (env : Env) (now : N) (email password : option string)
    (w w' : World) (accessToken refreshToken : string) (claims : Claims.t) :
  login svc env now email password w
  = (w', reply 200 (LoginOk accessToken refreshToken claims)) ->
  exists user jwtRefreshSecret,
    In user (users w)
    /\ claims = User.payload user
    /\ present (JWT_REFRESH_SECRET env) = Some jwtRefreshSecret
    /\ refreshToken
       = jwt_sign svc (User.payload user) jwtRefreshSecret now refresh_lifetime
    /\ users w'
       = storeUser (User.with_refreshToken user (Some refreshToken)) (users w).
Proof.
  unfold login.
  destruct (present email) as [e|]; [|destruct (present password); discriminate].
  destruct (present password) as [p|]; [|discriminate].
  destruct (findUserByEmail e (users w)) as [user|] eqn:Hfind; [|discriminate].
  destruct (bcrypt_compare svc p (User.password user)); [|discriminate].
  simpl.
  destruct (present (JWT_SECRET env)) as [s|]; [|discriminate].
  destruct (present (JWT_REFRESH_SECRET env)) as [rs|]; [|discriminate].
  intros [= <- _ <- <-]. exists user, rs.
  apply List.find_some in Hfind as [Hin _]. repeat split. exact Hin.
Qed.

(** The refresh token a login returns is determined by the user's claims,
    the refresh secret and the clock: two successful logins of one user at
    the same clock reading return the same refresh token, whatever the
    signing function. *)
Lemma login_same_second_same_token
    (svc : Services) (env : Env) (now : N)
    (email1 password1 email2 password2 : option string) (w0 w1 w1' w2 : World)
    (access1 refresh1 access2 refresh2 : string) (claims : Claims.t) :
  login svc env now email1 password1 w0
  = (w1, reply 200 (LoginOk access1 refresh1 claims)) ->
  login svc env now email2 password2 w1'
  = (w2, reply 200 (LoginOk access2 refresh2 claims)) ->
  refresh2 = refresh1.
Proof.
  intros H1 H2.
  destruct (login_ok_inv _ _ _ _ _ _ _ _ _ _ H1) as (u1 & rs1 & _ & -> & Hs1 & -> & _).
  destruct (login_ok_inv _ _ _ _ _ _ _ _ _ _ H2) as (u2 & rs2 & _ & Hc & Hs2 & -> & _).
  rewrite Hs1 in Hs2. injection Hs2 as <-. rewrite Hc. reflexivity.
Qed.

(** C4, as amended. After two successful logins of the same user, the
    second of which signed a refresh token different from the first, the
    user's stored refresh token is the second one, and the first one is no
    longer the stored value and is refused by every refresh, given that
    the first token, when it verifies, decodes to the user it was issued
    to. *)
Theorem second_login_revokes_first
    (svc : Services) (env : Env) (now1 now2 : N)
    (email1 password1 email2 password2 : option string) (w0 w1 w2 : World)
    (access1 refresh1 access2 refresh2 : string) (claims : Claims.t)
    (Hfirst : login svc env now1 email1 password1 w0
              = (w1, reply 200 (LoginOk access1 refresh1 claims)))
    (Hsecond : login svc env now2 email2 password2 w1
               = (w2, reply 200 (LoginOk access2 refresh2 claims)))
    (Hdistinct : refresh2 <> refresh1)
    (Hdecodes : forall jwtRefreshSecret now decoded,
        present (JWT_REFRESH_SECRET env) = Some jwtRefreshSecret ->
        jwt_verify svc refresh1 jwtRefreshSecret now = Some decoded ->
        Claims.id decoded = Claims.id claims) :
  (exists user, findUserById (Claims.id claims) (users w2) = Some user
                /\ User.refreshToken user = Some refresh2)
  /\ token_revoked svc env (Claims.id claims) refresh1 w2.
Proof.
  destruct (login_ok_inv _ _ _ _ _ _ _ _ _ _ Hsecond)
    as (user & rs & Hin & -> & Hrs & _ & Husers).
  assert (Hstored : findUserById (User._id user) (users w2)
                    = Some (User.with_refreshToken user (Some refresh2))).
  { rewrite Husers.
    apply (findUserById_storeUser (User.with_refreshToken user (Some refresh2))).
    exists user. auto. }
  simpl. split; [eauto|]. split.
  - intros u Hu. rewrite Hstored in Hu. injection Hu as <-. simpl.
    intros [= H]. contradiction.
  - intros now. unfold refresh. simpl.
    destruct (Js.truthy refresh1); [|simpl; discriminate].
    rewrite Hrs.
    destruct (present (JWT_SECRET env)); [|simpl; discriminate].
    destruct (jwt_verify svc refresh1 rs now) as [decoded|] eqn:Hv;
      [|simpl; discriminate].
    rewrite (Hdecodes _ _ _ Hrs Hv). simpl. rewrite Hstored. simpl.
    rewrite bool_decide_eq_false_2; [simpl; discriminate|].
    intros [= H]. contradiction.
Qed.

Lemma demo_verify_id (token secret : string) (now : N) (decoded : Claims.t) :
  Demo.verify token secret now = Some decoded ->
  List.head (Js.split Demo.bar token) = Some (Claims.id decoded).
Proof.
  unfold Demo.verify.
  destruct (Js.split Demo.bar token) as [|i [|e [|u [|k [|t [|exp [|]]]]]]];
    try discriminate.
  destruct (Demo.parse_decimal exp); [|discriminate].
  destruct (_ && _); [|discriminate].
  intros [= <-]. reflexivity.
Qed.

Lemma second_login_revokes_first_witness :
  token_revoked Demo.svc Demo.env "a1" Demo.refresh_token
    (fst (login Demo.svc Demo.env 51 (Some "a@x.com") (Some "secret1")
            Demo.session)).
Proof.
  refine (proj2 (second_login_revokes_first Demo.svc Demo.env 50 51
                   (Some "a@x.com") (Some "secret1")
                   (Some "a@x.com") (Some "secret1")
                   Demo.world Demo.session _ _ _ _ _ (User.payload Demo.alice)
                   eq_refl eq_refl _ _)).
  - vm_compute. discriminate.
  - intros rs now decoded [= <-] Hv.
    apply demo_verify_id in Hv. injection Hv as Hid.
    symmetry. exact Hid.
Defined.

(** C4, as stated, fails for two logins within the same second: both sign
    the same refresh token, which therefore stays the stored value and is
    accepted by a later refresh. *)
Lemma second_login_same_second_keeps_first :
  let first := login Demo.svc Demo.env 50 (Some "a@x.com") (Some "secret1")
                 Demo.world in
  let second := login Demo.svc Demo.env 50 (Some "a@x.com") (Some "secret1")
                  (fst first) in
  body (snd first)
  = LoginOk Demo.access_token Demo.refresh_token (User.payload Demo.alice)
  /\ body (snd second)
     = LoginOk Demo.access_token Demo.refresh_token (User.payload Demo.alice)
  /\ status (snd (refresh Demo.svc Demo.env 60 (Some Demo.refresh_token)
                    (fst second))) = 200
  /\ ~ token_revoked Demo.svc Demo.env "a1" Demo.refresh_token (fst second).
Proof.
  split; [reflexivity|]. split; [reflexivity|].
  split; [vm_compute; reflexivity|].
  intros [_ H]. apply (H 60%N). vm_compute. reflexivity.
Qed.

(** ** The routes end to end *)

(** A request for one's own record through the guard, with a scheme word
    that is not [Bearer]. *)
Example protected_read :
  protected Demo.svc Demo.env 60 (Some ("Token " ++ Demo.access_token))
    (fun req_user => fileInfo req_user "f0") Demo.world
  = (Demo.world, reply 200 (FileInfo (File.select_without_s3Key Demo.report))).
Proof. vm_compute. reflexivity. Qed.

(** After a logout the refresh token of the session is refused. *)
Example logout_then_refresh :
  let w := fst (logout (Some (User.payload Demo.alice)) Demo.session) in
  snd (refresh Demo.svc Demo.env 60 (Some Demo.refresh_token) w)
  = reply 403 (Message "Invalid refresh token").
Proof. vm_compute. reflexivity. Qed.

(** A batch of three files of which the storage refuses the first and the
    save refuses the last: what is logged and what the bucket holds. *)
Example upload_batch_effects :
  let w := fst (upload Demo.svc Demo.env 50 (Some (User.payload Demo.alice))
                  (Some [Demo.hollow; Demo.pdf; Demo.nameless]) (Some "/docs/")
                  Demo.world) in
  console_of (journal w)
  = ["Error uploading file empty.txt:"; "Error uploading file  :"]
  /\ blob_writes_of (journal w)
     = [("users/alice/docs/u8.txt", false); ("users/alice/docs/u9.pdf", true);
        ("users/alice/docs/u11. ", true)]
  /\ List.map File.s3Key (files w)
     = ["users/alice/docs/u0.pdf"; "users/bob/u7.txt"; "users/alice/docs/u9.pdf"]
  /\ bucket w !! "users/alice/docs/u11. " = Some "hi".
Proof. vm_compute. repeat split; reflexivity. Qed.
(** ** Registration *)

Lemma find_exists {A : Type} (p : A -> bool) (l : list A) (x : A) :
  In x l -> p x = true -> exists y, List.find p l = Some y.
Proof.
  intros Hin Hp. destruct (List.find p l) as [y|] eqn:E; [eauto|].
  rewrite (List.find_none _ _ E x Hin) in Hp. discriminate.
Qed.

Lemma find_app_none {A : Type} (p : A -> bool) (l1 l2 : list A) :
  List.find p l1 = None -> List.find p (l1 ++ l2)%list = List.find p l2.
Proof.
  induction l1 as [|x l1 IH]; simpl; [reflexivity|].
  destruct (p x); [discriminate|exact IH].
Qed.

Lemma utf16_length_truthy (s : string) :
  (6 <= utf16_length s)%nat -> Js.truthy s = true.
Proof. destruct s; simpl; [lia|reflexivity]. Qed.

(** The ways a registration ends. *)
Lemma register_cases
    (svc : Services) (reg : Registrar)
    (username email password : option string) (w : World) :
  let result := register svc reg username email password w in
  ((code (snd result) = 400 \/ code (snd result) = 409) /\ fst result = w)
  \/ (code (snd result) = 500 /\ users (fst result) = users w
      /\ files (fst result) = files w)
  \/ (exists n e p newUser,
        username = Some n /\ email = Some e /\ password = Some p
        /\ (6 <= utf16_length p)%nat
        /\ (forall u, In u (users w) ->
              User.email u <> Js.trim (toLowerCase e)
              /\ User.username u <> Js.trim n)
        /\ User.username newUser = Js.trim n
        /\ User.email newUser = Js.trim (toLowerCase e)
        /\ User.password newUser = bcrypt_hash reg p saltRounds (draws w)
        /\ User.refreshToken newUser = None
        /\ users (fst result) = (users w ++ [newUser])%list
        /\ files (fst result) = files w
        /\ snd result
           = answer 201 (Registered "User registered successfully"
                           (User.payload newUser))).
Proof.
  unfold register.
  destruct username as [n|]; simpl; [|left; auto].
  destruct (Js.truthy n); [|left; auto].
  destruct email as [e|]; simpl; [|left; auto].
  destruct (Js.truthy e); [|left; auto].
  destruct password as [p|]; simpl; [|left; auto].
  destruct (Js.truthy p); [|left; auto].
  destruct (utf16_length p <? 6)%nat eqn:Hlen; [left; auto|].
  destruct (findUserByEmailOrUsername e n (users w)) as [existing|] eqn:Hfind;
    [left; auto|].
  destruct (user_save reg _ _) eqn:Hsave; simpl; [|right; left; auto].
  right. right. eexists n, e, p, _.
  repeat split; try reflexivity.
  - apply Nat.ltb_ge in Hlen. exact Hlen.
  - intros He. apply (List.find_none _ _ Hfind) in H. rewrite He in H.
    rewrite String.eqb_refl in H. discriminate.
  - intros Hn. apply (List.find_none _ _ Hfind) in H. rewrite Hn in H.
    rewrite String.eqb_refl, orb_true_r in H. discriminate.
Qed.

(** Whatever is submitted with an ASCII name and email, a registration
    either answers 400 or 409 and leaves the world as it is, or answers 500
    and leaves the users and the records as they are, or answers 201 and
    appends one user: no stored user had the submitted email (trimmed, in
    lower case) or the submitted name (trimmed), the new user's name and
    email are the submitted ones in that form, its password is the hash of
    a password of at least six UTF-16 code units, it has no refresh token,
    and the response carries its identifier, name and email only. *)
Theorem register_outcomes
    (svc : Services) (reg : Registrar)
    (username email password : option string) (w : World)
    (Hname : ascii_opt username = true)
    (Hmail : ascii_opt email = true) :
  let result := register svc reg username email password w in
  ((code (snd result) = 400 \/ code (snd result) = 409) /\ fst result = w)
  \/ (code (snd result) = 500 /\ users (fst result) = users w
      /\ files (fst result) = files w)
  \/ (exists n e p newUser,
        username = Some n /\ email = Some e /\ password = Some p
        /\ (6 <= utf16_length p)%nat
        /\ (forall u, In u (users w) ->
              User.email u <> Js.trim (toLowerCase e)
              /\ User.username u <> Js.trim n)
        /\ User.username newUser = Js.trim n
        /\ User.email newUser = Js.trim (toLowerCase e)
        /\ User.password newUser = bcrypt_hash reg p saltRounds (draws w)
        /\ User.refreshToken newUser = None
        /\ users (fst result) = (users w ++ [newUser])%list
        /\ files (fst result) = files w
        /\ snd result
           = answer 201 (Registered "User registered successfully"
                           (User.payload newUser))).
Proof. apply register_cases. Qed.

Lemma register_outcomes_witness :
  exists newUser,
    users (fst (register Demo.svc Sample.registrar (Some " carol ")
                  (Some "C@x.com") (Some "letmein") Demo.world))
    = (users Demo.world ++ [newUser])%list
    /\ User.username newUser = "carol"
    /\ User.email newUser = "c@x.com".
Proof.
  destruct (register_outcomes Demo.svc Sample.registrar (Some " carol ")
              (Some "C@x.com") (Some "letmein") Demo.world eq_refl eq_refl)
    as [[[H|H] _]|[[H _]|(n & e & p & newUser & Hn & He & _ & _ & _ & Hun
                          & Hue & _ & _ & Husers & _)]].
  - vm_compute in H. discriminate H.
  - vm_compute in H. discriminate H.
  - vm_compute in H. discriminate H.
  - exists newUser. injection Hn as <-. injection He as <-.
    split; [exact Husers|]. split; [exact Hun|exact Hue].
Defined.

(** A registration with all fields, an ASCII name and email and a password
    of six UTF-16 code units or more, when some stored user has the
    submitted email (trimmed, in lower case) or the submitted name
    (trimmed), is answered 409 and leaves the world as it is. The message
    names the email when no stored user has the name and the email was
    submitted in the form it is stored in; it names the username whenever
    no stored user has the email exactly as submitted, which includes the
    conflict on an email submitted in upper case. *)
Theorem register_conflict_names_field
    (svc : Services) (reg : Registrar) (username email password : string)
    (w : World) (taken : User.t)
    (Hname : ascii_only username = true)
    (Hmail : ascii_only email = true)
    (Husername : Js.truthy username = true)
    (Hemail : Js.truthy email = true)
    (Hpassword : (6 <= utf16_length password)%nat)
    (Hstored : In taken (users w))
    (Htaken : User.email taken = Js.trim (toLowerCase email)
              \/ User.username taken = Js.trim username) :
  let result := register svc reg (Some username) (Some email) (Some password) w in
  fst result = w
  /\ code (snd result) = 409
  /\ ((forall u, In u (users w) -> User.username u <> Js.trim username) ->
      Js.trim (toLowerCase email) = email ->
      snd result = answer 409 (Plain (Message "Email already exists")))
  /\ ((forall u, In u (users w) -> User.email u <> email) ->
      snd result = answer 409 (Plain (Message "Username already exists"))).
Proof.
  unfold register. simpl. rewrite Husername, Hemail.
  rewrite (utf16_length_truthy _ Hpassword).
  apply Nat.ltb_ge in Hpassword. rewrite Hpassword.
  destruct (find_exists
              (fun u => String.eqb (User.email u) (Js.trim (toLowerCase email))
                        || String.eqb (User.username u) (Js.trim username))
              (users w) taken Hstored) as [existing Hfind].
  { destruct Htaken as [<-|<-]; rewrite String.eqb_refl;
      [reflexivity|apply orb_true_r]. }
  unfold findUserByEmailOrUsername. rewrite Hfind. simpl.
  split; [reflexivity|]. split; [reflexivity|].
  apply List.find_some in Hfind as [Hin Hmatch].
  split.
  - intros Hfree Hform.
    apply orb_true_iff in Hmatch as [Hm|Hm]; apply String.eqb_eq in Hm.
    + rewrite Hform in Hm. rewrite Hm, String.eqb_refl. reflexivity.
    + destruct (Hfree existing Hin Hm).
  - intros Hfree.
    destruct (String.eqb (User.email existing) email) eqn:E; [|reflexivity].
    apply String.eqb_eq in E. destruct (Hfree existing Hin E).
Qed.

Lemma register_conflict_names_field_witness :
  snd (register Demo.svc Sample.registrar (Some "alice2") (Some "a@x.com")
         (Some "secret9") Demo.world)
  = answer 409 (Plain (Message "Email already exists"))
  /\ snd (register Demo.svc Sample.registrar (Some "bob") (Some "new@x.com")
            (Some "secret9") Demo.world)
     = answer 409 (Plain (Message "Username already exists"))
  /\ snd (register Demo.svc Sample.registrar (Some "alice2") (Some "A@X.COM")
            (Some "secret9") Demo.world)
     = answer 409 (Plain (Message "Username already exists")).
Proof.
  split; [|split].
  - refine (proj1 (proj2 (proj2
      (register_conflict_names_field Demo.svc Sample.registrar "alice2"
         "a@x.com" "secret9" Demo.world Demo.alice _ _ _ _ _ _ _))) _ _).
    all: try (vm_compute; reflexivity).
    + simpl. lia.
    + left. reflexivity.
    + left. reflexivity.
    + intros u [<-|[<-|[]]]; vm_compute; discriminate.
  - refine (proj2 (proj2 (proj2
      (register_conflict_names_field Demo.svc Sample.registrar "bob"
         "new@x.com" "secret9" Demo.world Demo.bob _ _ _ _ _ _ _))) _).
    all: try (vm_compute; reflexivity).
    + simpl. lia.
    + right. left. reflexivity.
    + right. reflexivity.
    + intros u [<-|[<-|[]]]; vm_compute; discriminate.
  - refine (proj2 (proj2 (proj2
      (register_conflict_names_field Demo.svc Sample.registrar "alice2"
         "A@X.COM" "secret9" Demo.world Demo.alice _ _ _ _ _ _ _))) _).
    all: try (vm_compute; reflexivity).
    + simpl. lia.
    + left. reflexivity.
    + left. reflexivity.
    + intros u [<-|[<-|[]]]; vm_compute; discriminate.
Defined.

(** What a successful login did, secrets included. *)
Lemma login_ok_secrets
    (svc : Services) (env : Env) (now : N) (email password : option string)
    (w w' : World) (accessToken refreshToken : string) (claims : Claims.t) :
  login svc env now email password w
  = (w', reply 200 (LoginOk accessToken refreshToken claims)) ->
  exists jwtSecret,
    present (JWT_SECRET env) = Some jwtSecret
    /\ accessToken = jwt_sign svc claims jwtSecret now access_lifetime
    /\ files w' = files w /\ bucket w' = bucket w.
Proof.
  unfold login.
  destruct (present email) as [e|]; [|destruct (present password); discriminate].
  destruct (present password) as [p|]; [|discriminate].
  destruct (findUserByEmail e (users w)) as [user|]; [|discriminate].
  destruct (bcrypt_compare svc p (User.password user)); [|discriminate].
  simpl.
  destruct (present (JWT_SECRET env)) as [s|]; [|discriminate].
  destruct (present (JWT_REFRESH_SECRET env)) as [rs|]; [|discriminate].
  intros [= <- <- _ <-]. exists s. repeat split.
Qed.

(** A user who has just registered can log in: when the registration,
    with an ASCII name and email, is answered 201, the hash is one that
    [bcrypt.compare] accepts for the password and both token secrets are
    configured, the login with the same email and password is answered 200
    with tokens signed over the claims the registration returned, whose
    email is the submitted one trimmed and in lower case, and stores the
    refresh token. *)
Theorem register_then_login
    (svc : Services) (reg : Registrar) (env : Env) (now : N)
    (username email password : string) (w w1 : World) (claims : Claims.t)
    (jwtSecret jwtRefreshSecret : string)
    (Hname : ascii_only username = true)
    (Hmail : ascii_only email = true)
    (Hregistered : register svc reg (Some username) (Some email) (Some password) w
                   = (w1, answer 201 (Registered "User registered successfully"
                                         claims)))
    (Hhash : bcrypt_compare svc password
               (bcrypt_hash reg password saltRounds (draws w)) = true)
    (Hsecret : present (JWT_SECRET env) = Some jwtSecret)
    (Hrefresh : present (JWT_REFRESH_SECRET env) = Some jwtRefreshSecret) :
  let result := login svc env now (Some email) (Some password) w1 in
  let refreshToken := jwt_sign svc claims jwtRefreshSecret now refresh_lifetime in
  snd result
  = reply 200 (LoginOk (jwt_sign svc claims jwtSecret now access_lifetime)
                 refreshToken claims)
  /\ Claims.email claims = Js.trim (toLowerCase email)
  /\ exists user, findUserById (Claims.id claims) (users (fst result)) = Some user
                  /\ User.refreshToken user = Some refreshToken.
Proof.
  pose proof (register_cases svc reg (Some username) (Some email)
                (Some password) w) as Hout.
  simpl in Hout. rewrite Hregistered in Hout. simpl in Hout.
  destruct Hout as [[[H|H] _]|[[H _]|Hout]]; try discriminate H.
  destruct Hout as (n & e & p & newUser & [= <-] & [= <-] & [= <-] & Hlen
                    & Hfree & Hn & He & Hp & Hr & Husers & _ & Hanswer).
  injection Hanswer as ->.
  assert (Hfind : findUserByEmail email (users w1) = Some newUser).
  { unfold findUserByEmail. rewrite Husers, find_app_none.
    - simpl. rewrite He, String.eqb_refl. reflexivity.
    - destruct (List.find _ (users w)) as [u|] eqn:E; [|reflexivity].
      apply List.find_some in E as [Hin Heq]. apply String.eqb_eq in Heq.
      destruct (proj1 (Hfree u Hin) Heq). }
  assert (Htruthy : Js.truthy email = true /\ Js.truthy password = true).
  { unfold register in Hregistered. simpl in Hregistered.
    destruct (Js.truthy username); [|discriminate].
    destruct (Js.truthy email); [|discriminate].
    destruct (Js.truthy password); [|discriminate]. auto. }
  destruct Htruthy as [Hte Htp].
  unfold login. simpl. rewrite Hte, Htp, Hfind, Hp, Hhash. simpl.
  rewrite Hsecret, Hrefresh. simpl.
  split; [reflexivity|]. split; [exact He|].
  exists (User.with_refreshToken newUser
            (Some (jwt_sign svc (User.payload newUser) jwtRefreshSecret now
                     refresh_lifetime))).
  split; [|reflexivity].
  apply (findUserById_storeUser (User.with_refreshToken newUser (Some _))).
  exists newUser. split; [|reflexivity].
  rewrite Husers. apply List.in_or_app. right. left. reflexivity.
Qed.

Lemma register_then_login_witness :
  status (snd (login Demo.svc Demo.env 70 (Some "c@x.com") (Some "letmein")
                 Sample.registered)) = 200.
Proof.
  pose proof (register_then_login Demo.svc Sample.registrar Demo.env 70
                "carol" "c@x.com" "letmein" Demo.world Sample.registered
                {| Claims.id := "f9"; Claims.email := "c@x.com";
                   Claims.username := "carol" |}
                "access-secret" "refresh-secret"
                eq_refl eq_refl eq_refl eq_refl eq_refl eq_refl) as [H _].
  exact (f_equal status H).
Defined.

(** ** Sessions, continued *)

(** The refresh token a login returns opens the session: presented to a
    refresh at a time at which it verifies as the claims of the login, it
    is answered 200 with an access token signed over these claims at that
    time, and the world stays as the login left it. *)
Theorem login_then_refresh
    (svc : Services) (env : Env) (now later : N)
    (email password : option string) (w w1 : World)
    (accessToken refreshToken jwtRefreshSecret : string) (claims : Claims.t)
    (Hlogin : login svc env now email password w
              = (w1, reply 200 (LoginOk accessToken refreshToken claims)))
    (Htoken : Js.truthy refreshToken = true)
    (Hsecret : present (JWT_REFRESH_SECRET env) = Some jwtRefreshSecret)
    (Hverify : jwt_verify svc refreshToken jwtRefreshSecret later = Some claims) :
  exists jwtSecret,
    present (JWT_SECRET env) = Some jwtSecret
    /\ refresh svc env later (Some refreshToken) w1
       = (w1, reply 200 (AccessToken (jwt_sign svc claims jwtSecret later
                                        access_lifetime))).
Proof.
  destruct (login_ok_secrets _ _ _ _ _ _ _ _ _ _ Hlogin) as (s & Hs & _).
  destruct (login_ok_inv _ _ _ _ _ _ _ _ _ _ Hlogin)
    as (user & rs & Hin & -> & _ & _ & Husers).
  exists s. split; [exact Hs|].
  unfold refresh. simpl. rewrite Htoken, Hsecret, Hs, Hverify. simpl.
  rewrite Husers.
  rewrite (findUserById_storeUser
             (User.with_refreshToken user (Some refreshToken)));
    [|exists user; auto].
  simpl. rewrite bool_decide_eq_true_2; reflexivity.
Qed.

Lemma login_then_refresh_witness :
  status (snd (refresh Demo.svc Demo.env 3600 (Some Demo.refresh_token)
                 Demo.session)) = 200.
Proof.
  destruct (login_then_refresh Demo.svc Demo.env 50 3600
              (Some "a@x.com") (Some "secret1") Demo.world Demo.session
              Demo.access_token Demo.refresh_token "refresh-secret"
              (User.payload Demo.alice) eq_refl eq_refl eq_refl)
    as (s & _ & H).
  - vm_compute. reflexivity.
  - exact (f_equal (fun r => status (snd r)) H).
Defined.

(** A logout is answered 200, clears the refresh token of every stored
    user with the caller's identifier and changes nothing else; after it,
    no refresh with a token that can only be decoded to the caller is
    answered 200; and a second logout changes nothing more. *)
Theorem logout_revokes
    (svc : Services) (env : Env) (user : Claims.t) (w : World) :
  let w' := fst (logout (Some user) w) in
  snd (logout (Some user) w) = reply 200 (Message "Logout successful")
  /\ List.map User.payload (users w') = List.map User.payload (users w)
  /\ List.map User.password (users w') = List.map User.password (users w)
  /\ (forall u, In u (users w') ->
        (User._id u = Claims.id user /\ User.refreshToken u = None)
        \/ (User._id u <> Claims.id user /\ In u (users w)))
  /\ files w' = files w /\ bucket w' = bucket w
  /\ (forall token now,
        (forall secret decoded, jwt_verify svc token secret now = Some decoded ->
                                Claims.id decoded = Claims.id user) ->
        status (snd (refresh svc env now (Some token) w')) <> 200)
  /\ fst (logout (Some user) w') = w'.
Proof.
  simpl.
  set (clear := fun v : User.t =>
         if String.eqb (User._id v) (Claims.id user)
         then User.with_refreshToken v None else v).
  assert (Hcleared : forall u, In u (List.map clear (users w)) ->
            (User._id u = Claims.id user /\ User.refreshToken u = None)
            \/ (User._id u <> Claims.id user /\ In u (users w))).
  { intros u Hu. apply List.in_map_iff in Hu as (v & <- & Hv). unfold clear.
    destruct (String.eqb (User._id v) (Claims.id user)) eqn:E.
    - left. apply String.eqb_eq in E. auto.
    - right. apply String.eqb_neq in E. auto. }
  split; [reflexivity|]. split; [|split; [|split; [exact Hcleared|]]].
  - rewrite List.map_map. apply List.map_ext. intros v. unfold clear.
    destruct (String.eqb _ _); reflexivity.
  - rewrite List.map_map. apply List.map_ext. intros v. unfold clear.
    destruct (String.eqb _ _); reflexivity.
  - split; [reflexivity|]. split; [reflexivity|]. split.
    + intros token now Hdec. unfold refresh. simpl.
      destruct (Js.truthy token); [|simpl; discriminate].
      destruct (present (JWT_REFRESH_SECRET env)) as [rs|]; [|simpl; discriminate].
      destruct (present (JWT_SECRET env)) as [s|]; [|simpl; discriminate].
      destruct (jwt_verify svc token rs now) as [decoded|] eqn:Hv;
        [|simpl; discriminate].
      rewrite (Hdec _ _ Hv).
      destruct (findUserById _ _) as [u|] eqn:Hfind; [|simpl; discriminate].
      apply List.find_some in Hfind as [Hin Hid]. apply String.eqb_eq in Hid.
      destruct (Hcleared u Hin) as [[_ Hnone]|[Hne _]]; [|contradiction].
      rewrite Hnone, bool_decide_eq_false_2; simpl; discriminate.
    + unfold set_users. simpl. f_equal.
      rewrite List.map_map. apply List.map_ext. intros v. unfold clear.
      destruct (String.eqb (User._id v) (Claims.id user)) eqn:E; simpl;
        rewrite E; reflexivity.
Qed.

Lemma unique_by_id (us : list User.t) (a b : User.t) :
  List.NoDup (List.map User._id us) ->
  In a us -> In b us -> User._id a = User._id b -> a = b.
Proof.
  induction us as [|x us IH]; simpl; [tauto|].
  intros Hnd. apply List.NoDup_cons_iff in Hnd as [Hx Hnd].
  intros [<-|Ha] [<-|Hb] Hid; auto.
  - exfalso. apply Hx. rewrite Hid. apply List.in_map. exact Hb.
  - exfalso. apply Hx. rewrite <- Hid. apply List.in_map. exact Ha.
Qed.

(** Whatever its outcome, a login on a collection whose identifiers are
    unique keeps the users in place with their identifier, name, email and
    password, and touches neither the records nor the bucket: only a
    refresh token can change. *)
Theorem login_changes_only_refresh_token
    (svc : Services) (env : Env) (now : N) (email password : option string)
    (w : World)
    (Hunique : List.NoDup (List.map User._id (users w))) :
  let w' := fst (login svc env now email password w) in
  List.map User.payload (users w') = List.map User.payload (users w)
  /\ List.map User.password (users w') = List.map User.password (users w)
  /\ files w' = files w
  /\ bucket w' = bucket w.
Proof.
  unfold login.
  destruct (present email) as [e|];
    [|destruct (present password); repeat split].
  destruct (present password) as [p|]; [|repeat split].
  destruct (findUserByEmail e (users w)) as [user|] eqn:Hfind; [|repeat split].
  destruct (bcrypt_compare svc p (User.password user)); [|repeat split].
  simpl.
  destruct (present (JWT_SECRET env)) as [s|]; [|repeat split].
  destruct (present (JWT_REFRESH_SECRET env)) as [rs|]; [|repeat split].
  apply List.find_some in Hfind as [Hin _].
  simpl. unfold storeUser. rewrite !List.map_map.
  repeat split; apply List.map_ext_in; intros v Hv; simpl;
    destruct (String.eqb (User._id v) (User._id user)) eqn:E; try reflexivity;
    apply String.eqb_eq in E;
    rewrite (unique_by_id _ _ _ Hunique Hv Hin E); reflexivity.
Qed.

Lemma login_changes_only_refresh_token_witness :
  List.map User.password (users Demo.session)
  = List.map User.password (users Demo.world).
Proof.
  refine (proj1 (proj2 (login_changes_only_refresh_token Demo.svc Demo.env 50
                          (Some "a@x.com") (Some "secret1") Demo.world _))).
  repeat constructor; simpl; intuition discriminate.
Defined.

(** The access token a login returns passes the guard: in a Bearer header,
    at a time at which it verifies as the claims of the login, it
    authenticates the request as these claims. *)
Theorem login_then_authenticate
    (svc : Services) (env : Env) (now later : N)
    (email password : option string) (w w1 : World)
    (accessToken refreshToken : string) (claims : Claims.t)
    (Hlogin : login svc env now email password w
              = (w1, reply 200 (LoginOk accessToken refreshToken claims)))
    (Hword : Js.occurs space accessToken = false)
    (Htoken : Js.truthy accessToken = true)
    (Hverify : forall jwtSecret,
        present (JWT_SECRET env) = Some jwtSecret ->
        jwt_verify svc accessToken jwtSecret later = Some claims) :
  authenticate svc env later (Some ("Bearer " ++ accessToken)) = Next claims.
Proof.
  destruct (login_ok_secrets _ _ _ _ _ _ _ _ _ _ Hlogin) as (s & Hs & _).
  unfold authenticate.
  change ("Bearer " ++ accessToken) with ("Bearer" ++ " " ++ accessToken).
  rewrite (headerToken_scheme_token "Bearer" accessToken eq_refl Hword).
  simpl. rewrite Htoken, Hs, (Hverify s Hs). reflexivity.
Qed.

Lemma login_then_authenticate_witness :
  authenticate Demo.svc Demo.env 60 (Some ("Bearer " ++ Demo.access_token))
  = Next (User.payload Demo.alice).
Proof.
  apply (login_then_authenticate Demo.svc Demo.env 50 60
           (Some "a@x.com") (Some "secret1") Demo.world Demo.session
           Demo.access_token Demo.refresh_token (User.payload Demo.alice)
           eq_refl eq_refl eq_refl).
  intros s [= <-]. vm_compute. reflexivity.
Defined.

(** ** Listing, continued *)

Lemma insert_desc_hd (f a : File.t) (l : list File.t) :
  newer_first a f -> HdRel newer_first a l -> HdRel newer_first a (insert_desc f l).
Proof.
  intros Haf Hl. destruct l as [|g l]; simpl; [constructor; exact Haf|].
  destruct (File.uploadTime g <? File.uploadTime f)%N; constructor.
  - exact Haf.
  - inversion Hl. assumption.
Qed.

Lemma insert_desc_sorted (f : File.t) (l : list File.t) :
  Sorted newer_first l -> Sorted newer_first (insert_desc f l).
Proof.
  induction l as [|g l IH]; simpl; intros Hs.
  - repeat constructor.
  - destruct (File.uploadTime g <? File.uploadTime f)%N eqn:E.
    + constructor; [exact Hs|]. constructor. unfold newer_first.
      apply N.ltb_lt in E. lia.
    + inversion Hs as [|? ? Hs' Hhd]; subst. constructor; [exact (IH Hs')|].
      apply insert_desc_hd; [|exact Hhd]. unfold newer_first.
      apply N.ltb_ge in E. exact E.
Qed.

Lemma insert_desc_perm (f : File.t) (l : list File.t) :
  Permutation (insert_desc f l) (f :: l).
Proof.
  induction l as [|g l IH]; simpl; [reflexivity|].
  destruct (File.uploadTime g <? File.uploadTime f)%N; [reflexivity|].
  rewrite IH. apply perm_swap.
Qed.

(** [.sort({ uploadTime: -1 })] keeps exactly the documents it is given,
    each as many times, and puts them by upload time, latest first. *)
Theorem sort_desc_sorted (l : list File.t) :
  Sorted newer_first (sort_desc l) /\ Permutation (sort_desc l) l.
Proof.
  induction l as [|f l [IHs IHp]]; simpl.
  - split; constructor.
  - split; [apply insert_desc_sorted; exact IHs|].
    rewrite insert_desc_perm. constructor. exact IHp.
Qed.

Lemma trim_empty (s : string) : Js.truthy s = false -> Js.trim s = "".
Proof. destruct s; [reflexivity|discriminate]. Qed.

(** The query the handler builds selects what the listing is to show. *)
Lemma matches_selected (user : Claims.t) (folder fileType : option QueryValue)
    (f : File.t) :
  matches {| q_userId := Claims.id user; q_folder := filter_of folder;
             q_fileType := filter_of fileType |} f
  = selected user folder fileType f.
Proof.
  assert (H : forall (v : option QueryValue) (field : string) (cast : string -> string),
    match filter_of v with
    | Some d => String.eqb field (cast d)
    | None => true
    end
    = match v with
      | Some (QString d) =>
          String.eqb (Js.trim d) "" || String.eqb field (cast d)
      | _ => true
      end).
  { intros [[d| |]|] field cast; try reflexivity. simpl.
    destruct (Js.truthy d) eqn:Ht; simpl.
    - destruct (String.eqb (Js.trim d) ""); reflexivity.
    - rewrite (trim_empty _ Ht). reflexivity. }
  unfold matches, selected. simpl.
  rewrite (H folder (File.folder f) Js.trim).
  rewrite (H fileType (File.fileType f) (fun t => t)). reflexivity.
Qed.

(** What a listing answered 200 shows was stored, belongs to the caller,
    lies in the folder asked for, trimmed, when the [folder] parameter is a
    string that is not blank, and has the type asked for when the
    [fileType] parameter is a string that is not blank; and the total it
    reports is the number of the caller's records that pass these filters,
    whatever the page and the limit (for a cursor that only returns
    documents it was given, and filters in ASCII). *)
Theorem list_selects
    (svc : Services) (user : Claims.t)
    (folder fileType page limit : option QueryValue) (w : World)
    (listed : list File.view) (pg : Pagination)
    (Hfolder : forall d, folder = Some (QString d) -> ascii_only d = true)
    (HfileType : forall t, fileType = Some (QString t) -> ascii_only t = true)
    (Hcursor : forall skip lim l l',
        skip_limit svc skip lim l = Some l' -> incl l' l)
    (Hlist : snd (listFiles svc (Some user) folder fileType page limit w)
             = reply 200 (FileList listed pg)) :
  totalFiles pg
  = List.length (List.filter (selected user folder fileType) (files w))
  /\ forall v, In v listed ->
       exists f, In f (files w)
         /\ v = File.select_without_s3Key f
         /\ File.userId f = Claims.id user
         /\ (forall d, folder = Some (QString d) -> Js.trim d <> "" ->
               File.folder f = Js.trim d)
         /\ (forall t, fileType = Some (QString t) -> Js.trim t <> "" ->
               File.fileType f = t).
Proof.
  unfold listFiles in Hlist.
  rewrite (List.filter_ext _ _ (matches_selected user folder fileType))
    in Hlist.
  destruct (skip_limit svc _ _ _) as [l'|] eqn:E; [|discriminate Hlist].
  simpl in Hlist. injection Hlist as <- <-. simpl. split; [reflexivity|].
  intros v Hin. apply List.in_map_iff in Hin as (f & <- & Hf).
  apply (Hcursor _ _ _ _ E), sort_desc_In, List.filter_In in Hf as [Hf Hm].
  exists f. split; [exact Hf|]. split; [reflexivity|].
  unfold selected in Hm.
  apply andb_true_iff in Hm as [Hm Ht]. apply andb_true_iff in Hm as [Hu Hd].
  split; [apply String.eqb_eq; exact Hu|]. split.
  - intros d -> Hblank. apply orb_true_iff in Hd as [Hd|Hd];
      apply String.eqb_eq in Hd; [contradiction|exact Hd].
  - intros t -> Hblank. apply orb_true_iff in Ht as [Ht|Ht];
      apply String.eqb_eq in Ht; [contradiction|exact Ht].
Qed.

Lemma list_selects_witness :
  exists f, In f (files Sample.library)
    /\ File.select_without_s3Key Demo.report = File.select_without_s3Key f
    /\ File.userId f = "a1"
    /\ (forall d, Some (QString " docs ") = Some (QString d) ->
          Js.trim d <> "" -> File.folder f = Js.trim d)
    /\ (forall t, @None QueryValue = Some (QString t) -> Js.trim t <> "" ->
          File.fileType f = t).
Proof.
  refine (proj2 (list_selects Demo.svc (User.payload Demo.alice)
                   (Some (QString " docs ")) None None None Sample.library
                   [File.select_without_s3Key Demo.report]
                   {| page := Num 1; limit := Num 20; totalFiles := 1;
                      totalPages := Num 1; hasNext := false; hasPrev := false |}
                   _ _ window_incl _)
            (File.select_without_s3Key Demo.report) (or_introl eq_refl)).
  - intros d [= <-]. reflexivity.
  - intros t H. discriminate H.
  - vm_compute. reflexivity.
Defined.

(** With a page and a positive limit that parse as integers, a listing
    answered 200 echoes them, reports as total pages the least number of
    pages of that size that hold the total, says that there is a next page
    exactly when records remain after this page, and that there is a
    previous page exactly when the page is greater than one. *)
Theorem list_pagination
    (svc : Services) (user : Claims.t)
    (folder fileType pageQuery limitQuery : option QueryValue) (w : World)
    (listed : list File.view) (pg : Pagination) (p l : Z)
    (Hpage : parseInt svc (text_or "1" pageQuery) = Some p)
    (Hlimit : parseInt svc (text_or "20" limitQuery) = Some l)
    (Hpositive : (0 < l)%Z)
    (Hlist : snd (listFiles svc (Some user) folder fileType pageQuery limitQuery w)
             = reply 200 (FileList listed pg)) :
  let total := Z.of_nat (totalFiles pg) in
  page pg = Num p
  /\ limit pg = Num l
  /\ (exists pages, totalPages pg = Num pages
        /\ ((pages - 1) * l < total <= pages * l)%Z)
  /\ hasNext pg = (p * l <? total)%Z
  /\ hasPrev pg = (1 <? p)%Z.
Proof.
  unfold listFiles in Hlist. rewrite Hpage, Hlimit in Hlist.
  destruct (skip_limit svc _ _ _) as [l'|]; [|discriminate Hlist].
  simpl in Hlist. injection Hlist as <- <-. simpl.
  set (total := Z.of_nat (List.length _)).
  assert (Hl0 : (l =? 0)%Z = false) by (apply Z.eqb_neq; lia).
  unfold ceil_div. fold total. rewrite Hl0.
  pose proof (Z.div_mod (- total) l ltac:(lia)) as Hdm.
  pose proof (Z.mod_pos_bound (- total) l Hpositive) as Hmod.
  split; [reflexivity|]. split; [reflexivity|]. split; [|split; [|reflexivity]].
  - eexists. split; [reflexivity|]. nia.
  - simpl. destruct (p * l <? total)%Z eqn:E.
    + apply Z.ltb_lt in E. apply Z.ltb_lt. nia.
    + apply Z.ltb_ge in E. apply Z.ltb_ge. nia.
Qed.

Lemma list_pagination_witness :
  let pg := {| page := Num 1; limit := Num 1; totalFiles := 2;
               totalPages := Num 2; hasNext := true; hasPrev := false |} in
  (exists pages, totalPages pg = Num pages
     /\ ((pages - 1) * 1 < Z.of_nat (totalFiles pg) <= pages * 1)%Z)
  /\ hasNext pg = (1 * 1 <? Z.of_nat (totalFiles pg))%Z.
Proof.
  destruct (list_pagination Demo.svc (User.payload Demo.alice) None None
              (Some (QString "1")) (Some (QString "1")) Sample.library
              [File.select_without_s3Key Sample.photo]
              {| page := Num 1; limit := Num 1; totalFiles := 2;
                 totalPages := Num 2; hasNext := true; hasPrev := false |}
              1 1 eq_refl eq_refl eq_refl)
    as (_ & _ & Hpages & Hnext & _).
  - vm_compute. reflexivity.
  - split; [exact Hpages|exact Hnext].
Defined.



(** ** Folders *)

Lemma insert_string_perm (x : string) (l : list string) :
  Permutation (insert_string x l) (x :: l).
Proof.
  induction l as [|y l IH]; simpl; [reflexivity|].
  destruct (String.leb x y); [reflexivity|].
  rewrite IH. apply perm_swap.
Qed.

Lemma sort_strings_perm (l : list string) : Permutation (sort_strings l) l.
Proof.
  induction l as [|x l IH]; simpl; [constructor|].
  rewrite insert_string_perm. constructor. exact IH.
Qed.

Lemma insert_string_hd (x a : string) (l : list string) :
  string_le a x -> HdRel string_le a l -> HdRel string_le a (insert_string x l).
Proof.
  intros Hax Hl. destruct l as [|y l]; simpl; [constructor; exact Hax|].
  destruct (String.leb x y); constructor; [exact Hax|].
  inversion Hl. assumption.
Qed.

Lemma insert_string_sorted (x : string) (l : list string) :
  Sorted string_le l -> Sorted string_le (insert_string x l).
Proof.
  induction l as [|y l IH]; simpl; intros Hs.
  - repeat constructor.
  - destruct (String.leb x y) eqn:E.
    + constructor; [exact Hs|]. constructor. exact E.
    + inversion Hs as [|? ? Hs' Hhd]; subst. constructor; [exact (IH Hs')|].
      apply insert_string_hd; [|exact Hhd].
      destruct (String.leb_total x y) as [H|H]; [congruence|exact H].
Qed.

(** The folder list of a caller whose identifier is an ObjectId in
    canonical form and whose folders are ASCII is answered 200 and leaves
    the world as it is; it holds exactly the folders of the caller's
    records, each once, in ascending order. *)
Theorem listFolders_sorted_distinct (user : Claims.t) (w : World)
    (Hcaller : isObjectId (Claims.id user) = true)
    (Hascii : forall f, In f (files w) -> File.userId f = Claims.id user ->
                ascii_only (File.folder f) = true) :
  exists folders,
    listFolders (Some user) w = (w, answer 200 (Folders folders))
    /\ Sorted string_le folders
    /\ List.NoDup folders
    /\ forall d, In d folders <->
         exists f, In f (files w) /\ File.userId f = Claims.id user
                   /\ File.folder f = d.
Proof.
  clear Hcaller Hascii.
  eexists. split; [reflexivity|]. split; [|split].
  - unfold sort_strings.
    induction (distinctFolders (Claims.id user) (files w)) as [|x l IH]; simpl.
    + constructor.
    + apply insert_string_sorted. exact IH.
  - eapply Permutation_NoDup; [symmetry; apply sort_strings_perm|].
    apply List.NoDup_nodup.
  - intros d. rewrite (Permutation_in' eq_refl (sort_strings_perm _)).
    unfold distinctFolders. rewrite List.nodup_In, List.in_map_iff.
    split.
    + intros (f & <- & Hf). apply List.filter_In in Hf as [Hf Hu].
      apply String.eqb_eq in Hu. eauto.
    + intros (f & Hf & Hu & <-). exists f. split; [reflexivity|].
      apply List.filter_In. split; [exact Hf|]. apply String.eqb_eq. exact Hu.
Qed.

Lemma listFolders_sorted_distinct_witness :
  exists folders,
    listFolders (Some Sample.frank) Sample.shelves
    = (Sample.shelves, answer 200 (Folders folders))
    /\ Sorted string_le folders
    /\ (In "taxes" folders /\ In "/" folders).
Proof.
  destruct (listFolders_sorted_distinct Sample.frank Sample.shelves eq_refl)
    as (folders & Hlist & Hsorted & _ & Hin).
  - intros f [<-|[<-|[<-|[]]]] _; reflexivity.
  - exists folders. split; [exact Hlist|]. split; [exact Hsorted|]. split.
    + apply Hin. exists Sample.receipt. split; [right; left; reflexivity|].
      split; reflexivity.
    + apply Hin. exists Sample.ledger. split; [left; reflexivity|].
      split; reflexivity.
Defined.

Example folders_demo :
  snd (listFolders (Some (User.payload Demo.alice)) Sample.library)
  = answer 200 (Folders ["/"; "docs"]).
Proof. vm_compute. reflexivity. Qed.

(** ** Upload, continued *)

Lemma startsWith_app (p s : string) : Js.startsWith p (p ++ s) = true.
Proof.
  induction p as [|c p IH]; [reflexivity|].
  rewrite append_cons. simpl. rewrite Ascii.eqb_refl. exact IH.
Qed.

Lemma generateS3Key_prefix (username folder filename : string) :
  Js.startsWith ("users/" ++ username ++ "/")
    (generateS3Key username folder filename) = true.
Proof.
  unfold generateS3Key.
  replace ("users/" ++ username ++ "/" ++
           (if Js.truthy (sanitizeFolder folder)
            then sanitizeFolder folder ++ "/" else "") ++ filename)
    with (("users/" ++ username ++ "/") ++
          (if Js.truthy (sanitizeFolder folder)
           then sanitizeFolder folder ++ "/" else "") ++ filename).
  - apply startsWith_app.
  - rewrite !append_assoc. reflexivity.
Qed.

(** What one turn of the loop stores, if anything, is a record of the
    caller's. *)
Lemma uploadOne_records
    (svc : Services) (now : N) (user : Claims.t) (folder : string)
    (file : Multer.file) (w : World) :
  let result := uploadOne svc now user folder file w in
  (files (fst result) = files w /\ snd result = None)
  \/ (exists doc, files (fst result) = (files w ++ [doc])%list
        /\ snd result = Some (File.summarize doc)
        /\ uploaded_by user folder now doc).
Proof.
  unfold uploadOne.
  destruct (s3_upload svc _ _) as [location|]; [|left; split; reflexivity].
  destruct (file_save svc _ _); [|left; split; reflexivity].
  right. eexists. split; [reflexivity|]. split; [reflexivity|].
  unfold uploaded_by. simpl. repeat split. apply generateS3Key_prefix.
Qed.

Lemma uploadEach_records
    (svc : Services) (now : N) (user : Claims.t) (folder : string)
    (batch : list Multer.file) :
  forall (w : World) (uploadedFiles : list File.summary),
    let result := uploadEach svc now user folder batch w uploadedFiles in
    exists created,
      files (fst result) = (files w ++ created)%list
      /\ snd result = (uploadedFiles ++ List.map File.summarize created)%list
      /\ Forall (uploaded_by user folder now) created.
Proof.
  induction batch as [|file batch IH]; intros w uploadedFiles.
  - exists []. simpl. rewrite !app_nil_r. auto.
  - simpl.
    pose proof (uploadOne_records svc now user folder file w) as Hone.
    destruct (uploadOne svc now user folder file w) as [w1 pushed].
    simpl in Hone.
    destruct Hone as [[Hf ->]|(doc & Hf & -> & Hdoc)].
    + destruct (IH w1 uploadedFiles) as (created & Hf' & Hs' & Hall).
      exists created. simpl in *. rewrite Hf', Hs', Hf. auto.
    + destruct (IH w1 (uploadedFiles ++ [File.summarize doc])%list)
        as (created & Hf' & Hs' & Hall).
      exists (doc :: created). simpl in *.
      rewrite Hf', Hs', Hf, <- !List.app_assoc. auto.
Qed.

(** Whatever the request with an ASCII folder, an upload keeps every stored
    record in place and every user as it is, and each record it adds
    belongs to the caller, has its key under [users/] followed by the
    caller's name (or email, or identifier) and a slash, carries the folder
    of the request trimmed ([/] by default) and the clock as upload time,
    and has a type derived from its content type. *)
Theorem upload_adds_own_records
    (svc : Services) (env : Env) (now : N) (user : Claims.t)
    (req_files : option (list Multer.file)) (folder : option string)
    (w : World)
    (Hascii : ascii_only (default "/" (present folder)) = true) :
  let w' := fst (upload svc env now (Some user) req_files folder w) in
  users w' = users w
  /\ exists created,
       files w' = (files w ++ created)%list
       /\ Forall (uploaded_by user (default "/" (present folder)) now) created.
Proof.
  assert (Hnone : users w = users w
    /\ exists created, files w = (files w ++ created)%list
         /\ Forall (uploaded_by user (default "/" (present folder)) now) created).
  { split; [reflexivity|]. exists []. rewrite app_nil_r. auto. }
  unfold upload. destruct (validateAWSConfig env); simpl; [|exact Hnone].
  destruct req_files as [[|file batch]|]; try exact Hnone.
  destruct (uploadEach_run svc now user (default "/" (present folder))
              (file :: batch) w [])
    as (_ & _ & _ & _ & _ & _ & Hu & _).
  destruct (uploadEach_records svc now user (default "/" (present folder))
              (file :: batch) w [])
    as (created & Hf & _ & Hall).
  destruct (uploadEach svc now user _ (file :: batch) w []) as [w' uploaded].
  simpl in Hu, Hf.
  destruct (List.length uploaded =? 0)%nat; simpl; eauto.
Qed.

Lemma upload_adds_own_records_witness :
  let w' := fst (upload Demo.svc Demo.env 50 (Some (User.payload Demo.alice))
                   (Some [Demo.hollow; Demo.pdf; Demo.nameless])
                   (Some " /docs/ ") Demo.world) in
  users w' = users Demo.world
  /\ exists created,
       files w' = (files Demo.world ++ created)%list
       /\ Forall (uploaded_by (User.payload Demo.alice) " /docs/ " 50) created.
Proof.
  exact (upload_adds_own_records Demo.svc Demo.env 50 (User.payload Demo.alice)
           (Some [Demo.hollow; Demo.pdf; Demo.nameless]) (Some " /docs/ ")
           Demo.world eq_refl).
Defined.

(** Every file an upload reports as created can be read back by the
    caller: for each entry of a 201 response, the record and the download
    link of the entry's identifier are answered 200 in the world the
    upload leaves. *)
Theorem upload_then_read
    (svc : Services) (env : Env) (now : N) (user : Claims.t)
    (req_files : option (list Multer.file)) (folder : option string)
    (w w' : World) (count : nat) (uploaded : list File.summary)
    (Hupload : upload svc env now (Some user) req_files folder w
               = (w', reply 201 (Uploaded count uploaded))) :
  count = List.length uploaded
  /\ uploaded <> []
  /\ forall entry, In entry uploaded ->
       status (snd (fileInfo (Some user) (File.s_id entry) w')) = 200
       /\ status (snd (downloadLink svc (Some user) (File.s_id entry) w')) = 200.
Proof.
  unfold upload in Hupload.
  destruct (validateAWSConfig env); simpl in Hupload; [|discriminate Hupload].
  destruct req_files as [[|file batch]|]; try discriminate Hupload.
  destruct (uploadEach_records svc now user (default "/" (present folder))
              (file :: batch) w [])
    as (created & Hf & Hs & Hall).
  destruct (uploadEach svc now user _ (file :: batch) w []) as [w1 up].
  simpl in Hf, Hs.
  destruct (List.length up =? 0)%nat eqn:Hlen; [discriminate Hupload|].
  injection Hupload as <- <- <-.
  split; [reflexivity|]. split.
  { intros ->. discriminate Hlen. }
  intros entry Hin. rewrite Hs in Hin.
  apply List.in_map_iff in Hin as (doc & <- & Hdoc).
  rewrite List.Forall_forall in Hall. destruct (Hall doc Hdoc) as (Howner & _).
  destruct (find_exists
              (fun f => String.eqb (File._id f) (File._id doc)
                        && String.eqb (File.userId f) (Claims.id user))
              (files w1) doc) as [found Hfound].
  { rewrite Hf. apply List.in_or_app. right. exact Hdoc. }
  { rewrite Howner, !String.eqb_refl. reflexivity. }
  unfold fileInfo, downloadLink, findOwned. simpl. rewrite Hfound.
  split; reflexivity.
Qed.

Lemma upload_then_read_witness :
  status (snd (fileInfo (Some (User.payload Demo.alice)) "f10"
                 (fst (upload Demo.svc Demo.env 50
                         (Some (User.payload Demo.alice))
                         (Some [Demo.hollow; Demo.pdf; Demo.nameless])
                         (Some "/docs/") Demo.world)))) = 200.
Proof.
  pose (entry := {| File.s_id := "f10"; File.s_filename := "u9.pdf";
                    File.s_originalName := "plan.pdf"; File.s_size := 4;
                    File.s_contentType := "application/pdf";
                    File.s_fileType := "document"; File.s_folder := "/docs/";
                    File.s_uploadTime := 50 |}).
  assert (H : upload Demo.svc Demo.env 50 (Some (User.payload Demo.alice))
                (Some [Demo.hollow; Demo.pdf; Demo.nameless]) (Some "/docs/")
                Demo.world
              = (fst (upload Demo.svc Demo.env 50
                        (Some (User.payload Demo.alice))
                        (Some [Demo.hollow; Demo.pdf; Demo.nameless])
                        (Some "/docs/") Demo.world),
                 reply 201 (Uploaded 1 [entry]))).
  { vm_compute. reflexivity. }
  exact (proj1 (proj2 (proj2
           (upload_then_read Demo.svc Demo.env 50 (User.payload Demo.alice)
              _ _ Demo.world _ 1 [entry] H)) entry (or_introl eq_refl))).
Defined.

(** ** Deletion, continued *)

(** Deleting a record of the caller's leaves the users as they are; when
    the blob deletion succeeds the bucket loses the record's key and keeps
    every other one; and the same request once more is answered 404 and
    changes nothing, as is a request for the download link. *)
Theorem delete_then_again
    (svc : Services) (user : Claims.t) (id : ObjectId) (w : World) (file : File.t)
    (Hfound : findOwned id user w = Some file) :
  let w' := fst (deleteFile svc (Some user) id w) in
  users w' = users w
  /\ (s3_deleteObject svc (File.s3Key file) = true ->
        bucket w' !! File.s3Key file = None
        /\ forall key, key <> File.s3Key file ->
                       bucket w' !! key = bucket w !! key)
  /\ deleteFile svc (Some user) id w'
     = (w', reply 404 (Message "File not found"))
  /\ downloadLink svc (Some user) id w'
     = (w', reply 404 (Message "File not found")).
Proof.
  intros w'.
  destruct (findOwned_sound _ _ _ _ Hfound) as (Hin & Hid & Howner).
  assert (Hfiles : files w'
    = List.filter (fun f => negb (String.eqb (File._id f) id)) (files w)).
  { subst w'. unfold deleteFile. rewrite Hfound, Hid.
    destruct (s3_deleteObject svc (File.s3Key file)); reflexivity. }
  assert (Hnone : findOwned id user w' = None).
  { apply findOwned_none. intros f Hf Hi. rewrite Hfiles in Hf.
    apply List.filter_In in Hf as [_ Hf].
    rewrite Hi, String.eqb_refl in Hf. discriminate. }
  split; [|split; [|split]].
  - subst w'. unfold deleteFile. rewrite Hfound.
    destruct (s3_deleteObject svc (File.s3Key file)); reflexivity.
  - intros Hok. subst w'. unfold deleteFile. rewrite Hfound, Hok. simpl.
    split; [apply lookup_delete_eq|].
    intros key Hne. apply lookup_delete_ne. congruence.
  - unfold deleteFile. rewrite Hnone. reflexivity.
  - unfold downloadLink. rewrite Hnone. reflexivity.
Qed.

Lemma delete_then_again_witness :
  let w' := fst (deleteFile Demo.svc (Some (User.payload Demo.alice)) "f0"
                   Demo.world) in
  bucket w' !! "users/alice/docs/u0.pdf" = None
  /\ deleteFile Demo.svc (Some (User.payload Demo.alice)) "f0" w'
     = (w', reply 404 (Message "File not found")).
Proof.
  pose proof (delete_then_again Demo.svc (User.payload Demo.alice) "f0"
                Demo.world Demo.report eq_refl) as (_ & Hbucket & Hagain & _).
  split; [exact (proj1 (Hbucket eq_refl))|exact Hagain].
Defined.

(** ** Key derivation, continued *)

Lemma drop_leading_app (p : ascii -> bool) (a s : string) :
  all_chars p a = true -> Js.drop_leading p (a ++ s) = Js.drop_leading p s.
Proof.
  induction a as [|c a IH]; [reflexivity|].
  simpl all_chars. intros H. apply andb_true_iff in H as [Hc Ha].
  rewrite append_cons. simpl. rewrite Hc. exact (IH Ha).
Qed.

Lemma drop_trailing_all (p : ascii -> bool) (s : string) :
  all_chars p s = true -> Js.drop_trailing p s = "".
Proof.
  induction s as [|c s IH]; [reflexivity|].
  simpl. intros H. apply andb_true_iff in H as [Hc Hs].
  rewrite (IH Hs), Hc. reflexivity.
Qed.

Lemma drop_trailing_app (p : ascii -> bool) (s b : string) :
  all_chars p b = true -> Js.drop_trailing p (s ++ b) = Js.drop_trailing p s.
Proof.
  intros Hb. induction s as [|c s IH].
  - change ("" ++ b) with b. simpl. apply drop_trailing_all. exact Hb.
  - rewrite append_cons. simpl. rewrite IH. reflexivity.
Qed.

Lemma drop_leading_keeps_suffix (p : ascii -> bool) (s b : string) :
  all_chars p b = true ->
  Js.drop_trailing p (Js.drop_leading p (s ++ b))
  = Js.drop_trailing p (Js.drop_leading p s).
Proof.
  intros Hb. induction s as [|c s IH].
  - change ("" ++ b) with b. rewrite (drop_leading_all _ _ Hb). reflexivity.
  - rewrite append_cons. simpl. destruct (p c); [exact IH|].
    rewrite <- append_cons. apply drop_trailing_app. exact Hb.
Qed.

(** Slashes added before or after a folder do not change the key: the
    sanitized folder is the same, so that [docs], [/docs/] and [//docs]
    name the same place in the bucket; and sanitizing twice is sanitizing
    once. *)
Theorem sanitizeFolder_ignores_outer_slashes
    (leading folder trailing : string)
    (Hleading : all_chars is_slash leading = true)
    (Htrailing : all_chars is_slash trailing = true) :
  sanitizeFolder (leading ++ folder ++ trailing) = sanitizeFolder folder
  /\ sanitizeFolder (sanitizeFolder folder) = sanitizeFolder folder
  /\ forall username filename,
       generateS3Key username (leading ++ folder ++ trailing) filename
       = generateS3Key username folder filename.
Proof.
  assert (H : forall a d b, all_chars is_slash a = true ->
                            all_chars is_slash b = true ->
                            sanitizeFolder (a ++ d ++ b) = sanitizeFolder d).
  { intros a d b Ha Hb. unfold sanitizeFolder.
    rewrite (drop_leading_app _ _ _ Ha). apply drop_leading_keeps_suffix.
    exact Hb. }
  split; [apply H; assumption|]. split.
  - destruct (sanitizeFolder_strips folder) as [(a & b & Heq & Ha & Hb) _].
    rewrite Heq at 2. symmetry. apply H; assumption.
  - intros username filename. unfold generateS3Key.
    rewrite (H _ _ _ Hleading Htrailing). reflexivity.
Qed.

Lemma sanitizeFolder_ignores_outer_slashes_witness :
  generateS3Key "alice" ("//" ++ "docs/2024" ++ "/") "u.pdf"
  = generateS3Key "alice" "docs/2024" "u.pdf".
Proof.
  apply (sanitizeFolder_ignores_outer_slashes "//" "docs/2024" "/");
    reflexivity.
Defined.

(** The key does not keep the owner apart from the folder: a file in a
    folder of user [u] has the key of the same file at the root of a user
    whose name is [u], a slash and the sanitized folder. *)
Theorem generateS3Key_owner_folder_overlap
    (username folder filename : string)
    (Hfolder : sanitizeFolder folder <> "") :
  generateS3Key username folder filename
  = generateS3Key (username ++ "/" ++ sanitizeFolder folder) "/" filename.
Proof.
  rewrite (generateS3Key_with_folder _ _ _ Hfolder).
  rewrite (generateS3Key_no_folder _ "/" _ eq_refl).
  rewrite !append_assoc. reflexivity.
Qed.

Lemma generateS3Key_owner_folder_overlap_witness :
  generateS3Key "alice" "x" "u1.txt" = generateS3Key "alice/x" "/" "u1.txt".
Proof.
  apply (generateS3Key_owner_folder_overlap "alice" "x" "u1.txt").
  discriminate.
Defined.

Lemma endsWith_unfold (suffix s : string) :
  endsWith suffix s
  = String.eqb suffix s
    || match s with
       | EmptyString => false
       | String _ rest => endsWith suffix rest
       end.
Proof. destruct s; reflexivity. Qed.

Lemma pop_split (sep : ascii) (s : string) :
  exists seg, Js.pop (Js.split sep s) = Some seg
    /\ Js.occurs sep seg = false /\ endsWith seg s = true.
Proof.
  induction s as [|c s (seg & Hpop & Hocc & Hend)].
  - exists "". repeat split.
  - simpl. destruct (Ascii.eqb c sep) eqn:E.
    + exists seg. destruct (Js.split sep s) as [|x l] eqn:Es; [discriminate|].
      simpl in Hpop |- *. rewrite Hpop. repeat split; [exact Hocc|].
      rewrite Hend. apply orb_true_r.
    + destruct (Js.split sep s) as [|x l] eqn:Es; [discriminate|].
      destruct l as [|y l].
      * injection Hpop as <-. exists (String c x). simpl. rewrite E, Hocc.
        repeat split.
        assert (Hx : x = s).
        { clear - Hend Hocc Es.
          destruct (Js.occurs sep s) eqn:Hs.
          - destruct (split_with_sep _ _ Hs) as (a & b & r & Hr).
            rewrite Hr in Es. discriminate.
          - rewrite (split_no_sep _ _ Hs) in Es. congruence. }
        subst x. rewrite endsWith_unfold, String.eqb_refl, Ascii.eqb_refl.
        reflexivity.
      * exists seg. simpl in Hpop |- *. rewrite Hpop.
        repeat split; [exact Hocc|].
        rewrite Hend. apply orb_true_r.
Qed.

(** The extension the handler takes from a file name never contains a dot
    and is a suffix of the name, so that the generated file name is the
    identifier, a dot, and an ending of the original name without dots. *)
Theorem fileExtension_suffix_without_dot (originalname : string) :
  Js.occurs dot (fileExtension originalname) = false
  /\ endsWith (fileExtension originalname) originalname = true.
Proof.
  unfold fileExtension.
  destruct (pop_split dot originalname) as (seg & -> & Hocc & Hend).
  unfold Js.or_else. destruct seg; simpl Js.truthy; cbv iota; auto.
Qed.

(** ** File types *)

Lemma startsWith_split (p s : string) :
  Js.startsWith p s = true -> exists rest, s = p ++ rest.
Proof.
  revert s. induction p as [|c p IH]; intros s H.
  - exists s. reflexivity.
  - destruct s as [|d s]; [discriminate H|]. simpl in H.
    apply andb_true_iff in H as [Hc Hp]. apply Ascii.eqb_eq in Hc. subst d.
    destruct (IH s Hp) as [rest ->]. exists rest. reflexivity.
Qed.

(** The type the upload handler derives is always one the File schema
    admits; every [text/] type, every type that starts with
    [application/pdf] and every Office Open XML type is a document. *)
Theorem getFileType_classifies (mimetype : string) :
  In (getFileType mimetype) fileTypeEnum
  /\ (Js.startsWith "text/" mimetype = true ->
      getFileType mimetype = "document")
  /\ (Js.startsWith "application/pdf" mimetype = true ->
      getFileType mimetype = "document")
  /\ (Js.startsWith "application/vnd.openxmlformats-officedocument" mimetype
      = true ->
      getFileType mimetype = "document").
Proof.
  split; [|split; [|split]].
  - unfold getFileType, fileTypeEnum.
    repeat match goal with
           | |- context [if ?b then _ else _] => destruct b
           end; simpl; tauto.
  - intros H. apply startsWith_split in H as [rest ->]. unfold getFileType.
    change (Js.startsWith "image/" ("text/" ++ rest)) with false.
    change (Js.startsWith "video/" ("text/" ++ rest)) with false.
    change (Js.startsWith "audio/" ("text/" ++ rest)) with false.
    change (Js.includes "text" ("text/" ++ rest)) with true.
    rewrite orb_true_r. reflexivity.
  - intros H. apply startsWith_split in H as [rest ->]. unfold getFileType.
    change (Js.startsWith "image/" ("application/pdf" ++ rest)) with false.
    change (Js.startsWith "video/" ("application/pdf" ++ rest)) with false.
    change (Js.startsWith "audio/" ("application/pdf" ++ rest)) with false.
    change (Js.includes "pdf" ("application/pdf" ++ rest)) with true.
    reflexivity.
  - intros H. apply startsWith_split in H as [rest ->]. unfold getFileType.
    set (m := "application/vnd.openxmlformats-officedocument" ++ rest).
    change (Js.startsWith "image/" m) with false.
    change (Js.startsWith "video/" m) with false.
    change (Js.startsWith "audio/" m) with false.
    change (Js.includes "document" m) with true.
    rewrite orb_true_r. reflexivity.
Qed.

Lemma getFileType_classifies_witness :
  getFileType "text/html; charset=utf-8" = "document".
Proof.
  apply (proj1 (proj2 (getFileType_classifies "text/html; charset=utf-8"))).
  reflexivity.
Defined.

Lemma startsWith_longer (p s x : string) :
  Js.startsWith p s = true -> Js.startsWith p (s ++ x) = true.
Proof.
  intros H. apply startsWith_split in H as [rest ->].
  rewrite append_assoc. apply startsWith_app.
Qed.

(** The upload filter looks at the beginning of the content type only: a
    type it accepts is accepted with anything appended, and a type is
    accepted exactly when it starts with one of the allowed prefixes. *)
Theorem fileFilter_by_prefix (mimetype : string) :
  (fileFilter mimetype = true <->
   exists mime rest, In mime allowedMimes /\ mimetype = mime ++ rest)
  /\ (fileFilter mimetype = true ->
      forall parameters, fileFilter (mimetype ++ parameters) = true).
Proof.
  unfold fileFilter. split; [split|].
  - intros H. apply List.existsb_exists in H as (mime & Hin & Hs).
    apply startsWith_split in Hs as [rest ->]. eauto.
  - intros (mime & rest & Hin & ->). apply List.existsb_exists.
    exists mime. split; [exact Hin|apply startsWith_app].
  - intros H parameters. apply List.existsb_exists in H as (mime & Hin & Hs).
    apply List.existsb_exists. exists mime. split; [exact Hin|].
    apply startsWith_longer. exact Hs.
Qed.

Lemma fileFilter_by_prefix_witness :
  fileFilter ("image/png" ++ "; q=1") = true.
Proof.
  apply (proj2 (fileFilter_by_prefix "image/png")). reflexivity.
Defined.

(** ** Routes that only read *)

(** Reading a record, asking for a download link and listing the folders
    leave the world as it is, whoever asks, for identifiers that are
    ObjectIds in canonical form; listing the records and refreshing a
    token change neither the users, nor the records, nor the bucket. *)
Theorem queries_change_nothing
    (svc : Services) (env : Env) (now : N) (req_user : option Claims.t)
    (id : ObjectId) (folder fileType pageQuery limitQuery : option QueryValue)
    (refreshToken : option string) (w : World)
    (Hid : isObjectId id = true)
    (Hcaller : forall user, req_user = Some user ->
                 isObjectId (Claims.id user) = true) :
  fst (fileInfo req_user id w) = w
  /\ fst (downloadLink svc req_user id w) = w
  /\ fst (listFolders req_user w) = w
  /\ (let w' := fst (listFiles svc req_user folder fileType pageQuery
                       limitQuery w) in
      users w' = users w /\ files w' = files w /\ bucket w' = bucket w)
  /\ (let w' := fst (refresh svc env now refreshToken w) in
      users w' = users w /\ files w' = files w /\ bucket w' = bucket w).
Proof.
  clear Hid Hcaller.
  unfold fileInfo, downloadLink, listFolders, listFiles, refresh.
  destruct req_user as [user|].
  - destruct (findOwned id user w);
      (split; [reflexivity|]); (split; [reflexivity|]);
      (split; [reflexivity|]); (split;
        [destruct (skip_limit svc _ _ _); repeat split|]);
      destruct (present refreshToken); try (repeat split; fail);
      destruct (present (JWT_REFRESH_SECRET env)),
        (present (JWT_SECRET env)); try (repeat split; fail);
      destruct (jwt_verify svc _ _ _); try (repeat split; fail);
      destruct (findUserById _ _); try (repeat split; fail);
      destruct (bool_decide _); repeat split.
  - repeat (split; [reflexivity|]).
    split; [repeat split|].
    destruct (present refreshToken); try (repeat split; fail).
    destruct (present (JWT_REFRESH_SECRET env)),
      (present (JWT_SECRET env)); try (repeat split; fail).
    destruct (jwt_verify svc _ _ _); try (repeat split; fail).
    destruct (findUserById _ _); try (repeat split; fail).
    destruct (bool_decide _); repeat split.
Qed.

Lemma queries_change_nothing_witness :
  fst (fileInfo (Some Sample.frank) "64b7f1a2c3d4e5f6012345aa" Sample.vault)
  = Sample.vault
  /\ fst (downloadLink Demo.svc (Some Sample.frank) "64b7f1a2c3d4e5f6012345aa"
            Sample.vault)
     = Sample.vault.
Proof.
  destruct (queries_change_nothing Demo.svc Demo.env 50 (Some Sample.frank)
              "64b7f1a2c3d4e5f6012345aa" None None None None None Sample.vault
              eq_refl) as (Hinfo & Hlink & _).
  - intros user [= <-]. reflexivity.
  - split; [exact Hinfo|exact Hlink].
Defined.
